(** * Tasks.py: the task control block of the simulator

    A shallow embedding of [Task] (src/Tasks.py) and of the lifecycle
    protocol built on it: construction, the [create] and [killTask] system
    calls, [kill], [spawn] and the maintenance of the thread and open-file
    collections.

    Python objects are mutable and shared, so the embedding keeps the Task
    objects in a store indexed by reference; a [Thread] and an
    [OpenFileDescriptor] carry the reference of the task they were created
    for.  Code of the simulator that is not part of Tasks.py (Globals, CPU,
    SimTask, Thread, PageTable, Files) is modelled from its description in
    the specification, and every such definition says so. *)

From Stdlib Require Import ZArith String List Lia Bool Sorted.
From stdpp Require Import base decidable option list numbers strings gmap pretty.

Local Open Scope Z_scope.

(** ** Values of the simulator *)

(** A reference to a Task object: its index in the store of Task objects. *)
Abbreviation TaskRef := nat.

(** [Globals.TaskNew], [Globals.TaskReady], [Globals.TaskKill]. *)
Inductive TaskStatus := TaskNew | TaskReady | TaskKill.

(** [Globals.PrivilegedMode] and the mode [Globals.setUserMode] selects. *)
Inductive Mode := PrivilegedMode | UserMode.

(** Modelled from the spec: a Thread is constructed with (id, owning task,
    non-preemptive flag).  [th_obj] is the identity of the Python object:
    the class defines no equality of its own, so [==], [in] and
    [list.remove] compare identities. *)
Record Thread := mkThread {
  th_obj : nat;
  th_id : Z;
  th_task : TaskRef;
  th_nonPreemptive : bool
}.

(** Modelled from the spec: a file of a directory, with its name and size. *)
Record File := mkFile { f_name : string; f_size : Z }.

(** Modelled from the spec: the descriptor [File.open(file, task)] returns. *)
Record OpenFileDescriptor := mkOFD {
  ofd_obj : nat;
  ofd_file : File;
  ofd_task : TaskRef
}.

(** Modelled from the spec: the page table [PageTable(task)] constructs. *)
Record PageTable := mkPageTable { pt_obj : nat; pt_task : TaskRef }.

(** What a CPU register holds: nothing, a user, or a task. *)
Inductive Value := VNone | VUser (u : nat) | VTask (r : TaskRef).

#[global] Instance TaskStatus_eq_dec : EqDecision TaskStatus.
Proof. solve_decision. Defined.
#[global] Instance Mode_eq_dec : EqDecision Mode.
Proof. solve_decision. Defined.
#[global] Instance Thread_eq_dec : EqDecision Thread.
Proof. solve_decision. Defined.
#[global] Instance File_eq_dec : EqDecision File.
Proof. solve_decision. Defined.
#[global] Instance OpenFileDescriptor_eq_dec : EqDecision OpenFileDescriptor.
Proof. solve_decision. Defined.
#[global] Instance PageTable_eq_dec : EqDecision PageTable.
Proof. solve_decision. Defined.
#[global] Instance Value_eq_dec : EqDecision Value.
Proof. solve_decision. Defined.

(** The instance data of a Task, as [Task.__init__] declares it. *)
Record Task := mkTask {
  t_status : TaskStatus;
  t_id : Z;
  t_user : Value;
  t_nonPreemptive : bool;
  t_priority : Z;
  t_threadsList : list Thread;
  t_nextThreadNum : Z;
  t_openFileDescriptor : list OpenFileDescriptor;
  t_activeThread : option Thread;
  t_pageTable : PageTable;
  t_swapDirFile : string;
  t_swapFile : OpenFileDescriptor
}.

Definition set_status (s : TaskStatus) (t : Task) : Task :=
  mkTask s (t_id t) (t_user t) (t_nonPreemptive t) (t_priority t)
    (t_threadsList t) (t_nextThreadNum t) (t_openFileDescriptor t)
    (t_activeThread t) (t_pageTable t) (t_swapDirFile t) (t_swapFile t).

Definition set_threadsList (l : list Thread) (t : Task) : Task :=
  mkTask (t_status t) (t_id t) (t_user t) (t_nonPreemptive t) (t_priority t)
    l (t_nextThreadNum t) (t_openFileDescriptor t)
    (t_activeThread t) (t_pageTable t) (t_swapDirFile t) (t_swapFile t).

Definition set_nextThreadNum (n : Z) (t : Task) : Task :=
  mkTask (t_status t) (t_id t) (t_user t) (t_nonPreemptive t) (t_priority t)
    (t_threadsList t) n (t_openFileDescriptor t)
    (t_activeThread t) (t_pageTable t) (t_swapDirFile t) (t_swapFile t).

Definition set_openFileDescriptor (l : list OpenFileDescriptor) (t : Task) : Task :=
  mkTask (t_status t) (t_id t) (t_user t) (t_nonPreemptive t) (t_priority t)
    (t_threadsList t) (t_nextThreadNum t) l
    (t_activeThread t) (t_pageTable t) (t_swapDirFile t) (t_swapFile t).

Definition set_activeThread (a : option Thread) (t : Task) : Task :=
  mkTask (t_status t) (t_id t) (t_user t) (t_nonPreemptive t) (t_priority t)
    (t_threadsList t) (t_nextThreadNum t) (t_openFileDescriptor t)
    a (t_pageTable t) (t_swapDirFile t) (t_swapFile t).

(** ** Exceptions *)

(** The exceptions that leave a function of Tasks.py.  [PyException p t] is
    the builtin [Exception] whose message is the literal [p] followed by
    [str(t)]; [SimException] is the class of SimExceptions.py. *)
Inductive Exn :=
  | AssertionError
  | AttributeError
  | PyException (prefix : string) (t : Thread)
  | SimException (msg : string).

Inductive Res (A : Type) :=
  | Ok (a : A)
  | Raise (e : Exn).
Arguments Ok {A} a.
Arguments Raise {A} e.

(** ** Python lists *)

(** [l.remove(x)]: drops the first element equal to [x]; [None] stands for
    the [ValueError] of a list that does not hold [x]. *)
Fixpoint list_remove {A} `{EqDecision A} (x : A) (l : list A) : option (list A) :=
  match l with
  | [] => None
  | y :: l' =>
      if decide (y = x) then Some l'
      else match list_remove x l' with
           | Some r => Some (y :: r)
           | None => None
           end
  end.

(** [x in l]. *)
Definition list_in {A} `{EqDecision A} (x : A) (l : list A) : bool :=
  bool_decide (x ∈ l).

(** ** Methods of Task that touch the task alone *)

(** [Task.getId], [getNonPreemptive], [getStatus], [getPriority],
    [getPageTable], [getUser], [getSwapFile]. *)
Definition getId (t : Task) : Z := t_id t.
Definition getNonPreemptive (t : Task) : bool := t_nonPreemptive t.
Definition getStatus (t : Task) : TaskStatus := t_status t.
Definition getPriority (t : Task) : Z := t_priority t.
Definition getPageTable (t : Task) : PageTable := t_pageTable t.
Definition getUser (t : Task) : Value := t_user t.
Definition getSwapFile (t : Task) : OpenFileDescriptor := t_swapFile t.

(** [Task.getNumThreads]: [return self.__nextThreadNum]. *)
Definition getNumThreads (t : Task) : Z := t_nextThreadNum t.

(** [Task.addThread]: [self.__threadsList.append(thread)]. *)
Definition addThread (th : Thread) (t : Task) : Task :=
  set_threadsList (t_threadsList t ++ [th]) t.

(** [Task.removeThread]: the active thread is cleared first, then
    [list.remove] runs; its [ValueError] is swallowed by the bare [except],
    which leaves the list as it was (and the cleared active thread
    cleared). *)
Definition removeThread (th : Thread) (t : Task) : Task :=
  let t1 :=
    match t_activeThread t with
    | Some a => if decide (th = a) then set_activeThread None t else t
    | None => t
    end in
  match list_remove th (t_threadsList t1) with
  | Some l => set_threadsList l t1
  | None => t1
  end.

(** [Task.getThread]: linear scan by thread id. *)
Fixpoint find_thread (i : Z) (l : list Thread) : option Thread :=
  match l with
  | [] => None
  | x :: l' => if decide (th_id x = i) then Some x else find_thread i l'
  end.

Definition getThread (i : Z) (t : Task) : option Thread :=
  find_thread i (t_threadsList t).

Definition getActiveThread (t : Task) : option Thread := t_activeThread t.

(** [Task.setActiveThread]: the argument is [None] or a thread.  The failure
    branch is [raise Exception(f"SimException: Thread DNE in List: {thread}")]. *)
Definition setActiveThread (th : option Thread) (t : Task) : Res unit * Task :=
  match th with
  | None => (Ok tt, set_activeThread None t)
  | Some x =>
      if list_in x (t_threadsList t)
      then (Ok tt, set_activeThread (Some x) t)
      else (Raise (PyException "SimException: Thread DNE in List: "%string x), t)
  end.

Definition getThreadList (t : Task) : list Thread := t_threadsList t.

(** [Task.addOpenFile]: append unless already present. *)
Definition addOpenFile (fd : OpenFileDescriptor) (t : Task) : Task :=
  if negb (list_in fd (t_openFileDescriptor t))
  then set_openFileDescriptor (t_openFileDescriptor t ++ [fd]) t
  else t.

(** [Task.removeOpenFile]: [list.remove] with its [ValueError] swallowed. *)
Definition removeOpenFile (fd : OpenFileDescriptor) (t : Task) : Task :=
  match list_remove fd (t_openFileDescriptor t) with
  | Some l => set_openFileDescriptor l t
  | None => t
  end.

Definition getOpenFileList (t : Task) : list OpenFileDescriptor :=
  t_openFileDescriptor t.

(** ** The simulator's state *)

(** Calls into collaborators, recorded in the order they are made. *)
Inductive Event :=
  | EvSimTaskKill (r : TaskRef)
  | EvSimTaskSpawn (r : TaskRef)
  | EvThreadKill (th : Thread)
  | EvClose (fd : OpenFileDescriptor)
  | EvDeallocatePages (pt : PageTable)
  | EvRm (dir : string) (fd : OpenFileDescriptor).

#[global] Instance Event_eq_dec : EqDecision Event.
Proof. solve_decision. Defined.

(** Modelled from the spec: the state of the collaborators Tasks.py calls.
    Globals: the mode, the configured maxima, the address width and the
    reschedule flag; CPU: the registers; the registry (SimTask): the
    live-task table and the id it issues next; the file system: the
    directories by path.  [tasks] is the store of Task objects, [nextObj]
    the identity the next Thread, descriptor or page table object gets, and
    [calls] the collaborator calls made so far. *)
Record Sim := mkSim {
  mode : Mode;
  maxNumTasks : Z;
  maxNumThreads : Z;
  numAddressBits : Z;
  rescheduleNeeded : bool;
  registers : nat → Value;
  liveTasks : list TaskRef;
  nextTaskId : Z;
  tasks : list Task;
  nextObj : nat;
  fs : gmap string (list File);
  calls : list Event
}.

Definition set_mode (m : Mode) (w : Sim) : Sim :=
  mkSim m (maxNumTasks w) (maxNumThreads w) (numAddressBits w)
    (rescheduleNeeded w) (registers w) (liveTasks w) (nextTaskId w)
    (tasks w) (nextObj w) (fs w) (calls w).

Definition set_rescheduleNeeded (b : bool) (w : Sim) : Sim :=
  mkSim (mode w) (maxNumTasks w) (maxNumThreads w) (numAddressBits w)
    b (registers w) (liveTasks w) (nextTaskId w)
    (tasks w) (nextObj w) (fs w) (calls w).

Definition set_liveTasks (l : list TaskRef) (w : Sim) : Sim :=
  mkSim (mode w) (maxNumTasks w) (maxNumThreads w) (numAddressBits w)
    (rescheduleNeeded w) (registers w) l (nextTaskId w)
    (tasks w) (nextObj w) (fs w) (calls w).

Definition set_nextTaskId (n : Z) (w : Sim) : Sim :=
  mkSim (mode w) (maxNumTasks w) (maxNumThreads w) (numAddressBits w)
    (rescheduleNeeded w) (registers w) (liveTasks w) n
    (tasks w) (nextObj w) (fs w) (calls w).

Definition set_tasks (l : list Task) (w : Sim) : Sim :=
  mkSim (mode w) (maxNumTasks w) (maxNumThreads w) (numAddressBits w)
    (rescheduleNeeded w) (registers w) (liveTasks w) (nextTaskId w)
    l (nextObj w) (fs w) (calls w).

Definition set_nextObj (n : nat) (w : Sim) : Sim :=
  mkSim (mode w) (maxNumTasks w) (maxNumThreads w) (numAddressBits w)
    (rescheduleNeeded w) (registers w) (liveTasks w) (nextTaskId w)
    (tasks w) n (fs w) (calls w).

Definition set_fs (m : gmap string (list File)) (w : Sim) : Sim :=
  mkSim (mode w) (maxNumTasks w) (maxNumThreads w) (numAddressBits w)
    (rescheduleNeeded w) (registers w) (liveTasks w) (nextTaskId w)
    (tasks w) (nextObj w) m (calls w).

Definition set_calls (l : list Event) (w : Sim) : Sim :=
  mkSim (mode w) (maxNumTasks w) (maxNumThreads w) (numAddressBits w)
    (rescheduleNeeded w) (registers w) (liveTasks w) (nextTaskId w)
    (tasks w) (nextObj w) (fs w) l.

(** ** Computations: state passing with exceptions *)

(** A computation runs on a state and ends normally with a value or with
    an exception; either way it leaves a state behind. *)
Definition M (A : Type) : Type := Sim → Res A * Sim.

#[global] Instance M_ret : MRet M := λ A a w, (Ok a, w).

#[global] Instance M_bind : MBind M := λ A B k m w,
  match m w with
  | (Ok a, w') => k a w'
  | (Raise e, w') => (Raise e, w')
  end.

#[global] Instance M_throw : MThrow Exn M := λ A e w, (Raise e, w).

Definition gets {A} (f : Sim → A) : M A := λ w, (Ok (f w), w).
Definition modify (f : Sim → Sim) : M unit := λ w, (Ok tt, f w).

(** [for x in l: f(x)], on a list fixed before the loop starts. *)
Fixpoint for_each {A} (f : A → M unit) (l : list A) : M unit :=
  match l with
  | [] => mret tt
  | x :: l' => f x ;; for_each f l'
  end.

Definition log (e : Event) : M unit :=
  modify (λ w, set_calls (calls w ++ [e]) w).

(** A fresh object identity. *)
Definition alloc_obj : M nat :=
  o ← gets nextObj; modify (set_nextObj (S o)) ;; mret o.

(** Reading the fields of the object behind a reference.  Python has no
    reference to a missing object; the model answers [AttributeError]
    there, as for a method call on a value that is no Task. *)
Definition get_task (r : TaskRef) : M Task :=
  o ← gets (λ w, tasks w !! r);
  match o with
  | Some t => mret t
  | None => mthrow AttributeError
  end.

(** Updating the object behind a reference in place. *)
Definition update_task (r : TaskRef) (f : Task → Task) : M unit :=
  modify (λ w, set_tasks (alter f r (tasks w)) w).

(** ** Collaborators *)

(** Modelled from the spec: Globals, the mode and configuration state
    (current-mode query, set-to-non-privileged, configured maxima, address
    width, reschedule flag). *)
Definition getMode : M Mode := gets mode.
Definition setUserMode : M unit := modify (set_mode UserMode).
Definition getMaxNumTasks : M Z := gets maxNumTasks.
Definition getMaxNumThreads : M Z := gets maxNumThreads.
Definition getNumAddressBits : M Z := gets numAddressBits.
Definition setRescheduleNeeded : M unit := modify (set_rescheduleNeeded true).

(** Modelled from the spec: CPU, reading a general-purpose register. *)
Definition getRegister (n : nat) : M Value := gets (λ w, registers w n).

(** Modelled from the spec: the registry (SimTask) counts the live tasks,
    issues unique ids, registers a task in the live-task table, and has a
    kill and a spawn hook; the kill hook takes the task out of the table. *)
Definition getNumTasks : M Z := gets (λ w, Z.of_nat (length (liveTasks w))).

Definition getUniqueTaskId : M Z :=
  i ← gets nextTaskId; modify (set_nextTaskId (i + 1)) ;; mret i.

Definition registerTask (r : TaskRef) : M unit :=
  modify (λ w, set_liveTasks (liveTasks w ++ [r]) w).

Definition SimTask_kill (r : TaskRef) : M unit :=
  log (EvSimTaskKill r) ;;
  modify (λ w, set_liveTasks (filter (λ x, x ≠ r) (liveTasks w)) w).

Definition SimTask_spawn (r : TaskRef) : M unit := log (EvSimTaskSpawn r).

(** Modelled from the spec: [Thread(id, task, nonPreemptive)] constructs a
    new object, and [Thread.kill] removes the thread from the collection of
    the task that owns it (self-deregistration). *)
Definition Thread_new (i : Z) (r : TaskRef) (np : bool) : M Thread :=
  o ← alloc_obj; mret (mkThread o i r np).

Definition Thread_kill (th : Thread) : M unit :=
  log (EvThreadKill th) ;; update_task (th_task th) (removeThread th).

(** Modelled from the spec: [PageTable(task)] constructs a page table and
    [deallocatePages] releases its pages. *)
Definition PageTable_new (r : TaskRef) : M PageTable :=
  o ← alloc_obj; mret (mkPageTable o r).

Definition deallocatePages (pt : PageTable) : M unit :=
  log (EvDeallocatePages pt).

(** Modelled from the spec: the file system resolves a path to a directory
    handle, looks a name up in a directory, creates a file of a given size,
    removes an entry, opens a file to obtain a descriptor, and closes a
    descriptor, which removes it from the open files of its task
    (self-deregistration). *)
Definition getFullPathFile (p : string) : M string := mret p.

Definition dir_entries (dir : string) (w : Sim) : list File :=
  default [] (fs w !! dir).

Definition getFileEntry (dir name : string) : M (option File) :=
  gets (λ w, find (λ f, bool_decide (f_name f = name)) (dir_entries dir w)).

Definition newFile (dir name : string) (size : Z) : M File :=
  modify (λ w, set_fs (<[dir := dir_entries dir w ++ [mkFile name size]]> (fs w)) w) ;;
  mret (mkFile name size).

Definition rm (dir : string) (fd : OpenFileDescriptor) : M unit :=
  log (EvRm dir fd) ;;
  modify (λ w, set_fs
    (<[dir := filter (λ f, f_name f ≠ f_name (ofd_file fd)) (dir_entries dir w)]> (fs w)) w).

Definition File_open (f : File) (r : TaskRef) : M OpenFileDescriptor :=
  o ← alloc_obj; mret (mkOFD o f r).

Definition OpenFileDescriptor_close (fd : OpenFileDescriptor) : M unit :=
  log (EvClose fd) ;; update_task (ofd_task fd) (removeOpenFile fd).

(** ** The lifecycle protocol of Task *)

(** [Task.__init__].  The object gets the next reference of the store; the
    swap file is the entry of "/swap" named [str(id)], created with
    [2 ** getNumAddressBits()] bytes when the directory has none. *)
Definition Task_init (i : Z) (user : Value) (nonPreemptive : bool) : M TaskRef :=
  self ← gets (λ w, length (tasks w));
  pageTable ← PageTable_new self;
  swapDirectory ← getFullPathFile "/swap"%string;
  bits ← getNumAddressBits;
  let swapFileSize := 2 ^ bits in
  swapFile ← getFileEntry swapDirectory (pretty i);
  file ← match swapFile with
         | None => newFile swapDirectory (pretty i) swapFileSize
         | Some f => mret f
         end;
  opendedSwapFile ← File_open file self;
  modify (λ w, set_tasks (tasks w ++
    [mkTask TaskNew i user nonPreemptive (if nonPreemptive then -1 else 0)
       [] 0 [opendedSwapFile] None pageTable swapDirectory opendedSwapFile]) w) ;;
  mret self.

(** [Task.spawn]. *)
Definition spawn (self : TaskRef) : M unit :=
  SimTask_spawn self ;;
  t ← get_task self;
  mx ← getMaxNumTasks;
  if bool_decide (getNumThreads t < mx) then
    newThread ← Thread_new (t_nextThreadNum t) self (t_nonPreemptive t);
    update_task self (addThread newThread) ;;
    update_task self (λ t, set_nextThreadNum (t_nextThreadNum t + 1) t) ;;
    setRescheduleNeeded
  else mret tt.

(** [Task.create]. *)
Definition create (nonPreemptive : bool) : M (option TaskRef) :=
  m ← getMode;
  if decide (m = PrivilegedMode) then
    n ← getNumTasks;
    mx ← getMaxNumTasks;
    if bool_decide (n < mx) then
      user ← getRegister 6;
      uniqueid ← getUniqueTaskId;
      newTask ← Task_init uniqueid user nonPreemptive;
      registerTask newTask ;;
      spawn newTask ;;
      update_task newTask (set_status TaskReady) ;;
      setUserMode ;;
      mret (Some newTask)
    else
      setUserMode ;; mret None
  else mthrow AssertionError.

(** [Task.kill]: both loops run over a reversed copy of the list, taken
    when the loop starts. *)
Definition kill (self : TaskRef) : M unit :=
  SimTask_kill self ;;
  update_task self (set_status TaskKill) ;;
  t ← get_task self;
  for_each Thread_kill (reverse (t_threadsList t)) ;;
  t ← get_task self;
  let filesToClose := getOpenFileList t in
  for_each OpenFileDescriptor_close (reverse filesToClose) ;;
  t ← get_task self;
  deallocatePages (t_pageTable t) ;;
  rm (t_swapDirFile t) (t_swapFile t).

(** [Task.killTask]. *)
Definition killTask : M unit :=
  m ← getMode;
  if decide (m = PrivilegedMode) then
    taskInRegister ← getRegister 1;
    match taskInRegister with
    | VNone => mret tt
    | VTask r => kill r
    | VUser _ => mthrow AttributeError
    end ;;
    setUserMode
  else mthrow AssertionError.

(** The methods of the first part, run on the object behind a reference. *)
Definition do_addThread (self : TaskRef) (th : Thread) : M unit :=
  update_task self (addThread th).

Definition do_removeThread (self : TaskRef) (th : Thread) : M unit :=
  update_task self (removeThread th).

Definition do_setActiveThread (self : TaskRef) (th : option Thread) : M unit :=
  t ← get_task self;
  match setActiveThread th t with
  | (Ok _, t') => update_task self (λ _, t')
  | (Raise e, _) => mthrow e
  end.

(** ** Histories of calls on the tasks of a store *)

(** The calls a user of Task makes on the task behind a reference. *)
Inductive Op :=
  | OpSpawn (r : TaskRef)
  | OpAddThread (r : TaskRef) (th : Thread)
  | OpRemoveThread (r : TaskRef) (th : Thread)
  | OpSetActiveThread (r : TaskRef) (th : option Thread)
  | OpKill (r : TaskRef).

Definition run_op (op : Op) : M unit :=
  match op with
  | OpSpawn r => spawn r
  | OpAddThread r th => do_addThread r th
  | OpRemoveThread r th => do_removeThread r th
  | OpSetActiveThread r th => do_setActiveThread r th
  | OpKill r => kill r
  end.

(** The state a history of calls leaves; a call that ends with an exception
    leaves the state it had reached, and the history goes on. *)
Definition exec (ops : list Op) (w : Sim) : Sim :=
  foldl (λ w op, (run_op op w).2) w ops.

(** What is observed of the task behind [r]. *)
Definition threads_of (r : TaskRef) (w : Sim) : list Thread :=
  from_option t_threadsList [] (tasks w !! r).

Definition counter_of (r : TaskRef) (w : Sim) : Z :=
  from_option t_nextThreadNum 0 (tasks w !! r).

Definition active_of (r : TaskRef) (w : Sim) : option Thread :=
  from_option t_activeThread None (tasks w !! r).

(** The threads a call adds to the task behind [r] by spawning: what
    [spawn] on [r] appended to the thread collection. *)
Definition spawned (r : TaskRef) (op : Op) (w : Sim) : list Thread :=
  match op with
  | OpSpawn r' =>
      if decide (r' = r)
      then drop (length (threads_of r w)) (threads_of r (run_op op w).2)
      else []
  | _ => []
  end.

(** The threads a history spawns on [r], in the order of the calls. *)
Fixpoint spawned_threads (r : TaskRef) (ops : list Op) (w : Sim) : list Thread :=
  match ops with
  | [] => []
  | op :: ops' => spawned r op w ++ spawned_threads r ops' (run_op op w).2
  end.

(** The number of [addThread] calls of a history on [r], and the number of
    its [removeThread] calls on [r] that found their thread in the
    collection. *)
Fixpoint added (r : TaskRef) (ops : list Op) : Z :=
  match ops with
  | [] => 0
  | OpAddThread r' _ :: ops' => (if decide (r' = r) then 1 else 0) + added r ops'
  | _ :: ops' => added r ops'
  end.

Fixpoint removed (r : TaskRef) (ops : list Op) (w : Sim) : Z :=
  match ops with
  | [] => 0
  | op :: ops' =>
      match op with
      | OpRemoveThread r' th =>
          if decide (r' = r)
          then (if list_in th (threads_of r w) then 1 else 0)
          else 0
      | _ => 0
      end + removed r ops' (run_op op w).2
  end.

(** Histories without [kill]. *)
Definition is_kill (op : Op) : bool :=
  match op with OpKill _ => true | _ => false end.

(** The invariant I3 of a task: the active thread is none or a thread of the
    collection. *)
Definition active_ok (t : Task) : Prop :=
  match t_activeThread t with
  | None => True
  | Some a => a ∈ t_threadsList t
  end.

(** A thread object exists in a state when its identity has been issued. *)
Definition allocated (w : Sim) (th : Thread) : Prop := (th_obj th < nextObj w)%nat.

(** A history in which every [addThread] is given an existing thread that
    the collection does not hold at that moment. *)
Fixpoint adds_absent (ops : list Op) (w : Sim) : Prop :=
  match ops with
  | [] => True
  | op :: ops' =>
      (match op with
       | OpAddThread r th => (th ∉ threads_of r w) ∧ allocated w th
       | _ => True
       end) ∧ adds_absent ops' (run_op op w).2
  end.

(** The effect of the two teardown loops of [kill] on the store. *)
Definition kill_threads (l : list Thread) (ts : list Task) : list Task :=
  foldl (λ ts th, alter (removeThread th) (th_task th) ts) ts l.

Definition close_files (l : list OpenFileDescriptor) (ts : list Task) : list Task :=
  foldl (λ ts fd, alter (removeOpenFile fd) (ofd_task fd) ts) ts l.

(** The invariant C9 is about: a task holds no thread twice, and the threads
    it holds are objects constructed so far (their identities lie below the
    next one to be issued). *)
Definition threads_ok_at (n : nat) (t : Task) : Prop :=
  NoDup (t_threadsList t) ∧ Forall (λ th, (th_obj th < n)%nat) (t_threadsList t).

Definition threads_ok (w : Sim) : Prop :=
  Forall (threads_ok_at (nextObj w)) (tasks w).

(** ** The effect of the calls on the store *)

(** What the teardown loops keep of a task. *)
Definition kept_by_teardown (t : Task) :=
  (t_status t, t_id t, t_user t, t_nonPreemptive t, t_priority t,
   t_nextThreadNum t, t_pageTable t, t_swapDirFile t, t_swapFile t).

(** What [spawn] does to the task it is called on: [o] is the identity of
    the new thread, [mx] is what [Globals.getMaxNumTasks()] returned. *)
Definition spawn_task (o : nat) (r : TaskRef) (mx : Z) (t : Task) : Task :=
  if bool_decide (getNumThreads t < mx)
  then set_nextThreadNum (t_nextThreadNum t + 1)
         (addThread (mkThread o (t_nextThreadNum t) r (t_nonPreemptive t)) t)
  else t.

(** The store a call leaves. *)
Definition op_tasks (op : Op) (w : Sim) : list Task :=
  match op with
  | OpSpawn r => alter (spawn_task (nextObj w) r (maxNumTasks w)) r (tasks w)
  | OpAddThread r th => alter (addThread th) r (tasks w)
  | OpRemoveThread r th => alter (removeThread th) r (tasks w)
  | OpSetActiveThread r th => alter (λ t, (setActiveThread th t).2) r (tasks w)
  | OpKill r =>
      match tasks w !! r with
      | Some t =>
          close_files (reverse (t_openFileDescriptor t))
            (kill_threads (reverse (t_threadsList t))
               (alter (set_status TaskKill) r (tasks w)))
      | None => tasks w
      end
  end.

(** ** Worked states *)

(** A state at boot: privileged mode, at most 3 tasks and 2 threads, 4
    address bits, user 7 in register 6, nothing created yet. *)
Definition boot : Sim :=
  mkSim PrivilegedMode 3 2 4 false
    (λ n, if decide (n = 6%nat) then VUser 7 else VNone)
    [] 0 [] 0%nat ∅ [].

(** A state whose live-task table is full. *)
Definition boot_full : Sim :=
  mkSim PrivilegedMode 1 2 4 false (λ _, VNone) [0%nat] 1 (tasks (create false boot).2)
    3%nat (fs (create false boot).2) [].

(** The state after the first task was created, and after it spawned a
    second thread. *)
Definition sim1 : Sim := (create false boot).2.
Definition sim2 : Sim := (spawn 0 sim1).2.

(** The task of [sim2]. *)
Definition sim2_task0 : Task :=
  mkTask TaskReady 0 (VUser 7) false 0
    [mkThread 2 0 0 false; mkThread 3 1 0 false] 2
    [mkOFD 1 (mkFile "0" 16) 0] None (mkPageTable 0 0) "/swap"
    (mkOFD 1 (mkFile "0" 16) 0).

(** A thread of some other task. *)
Definition stranger : Thread := mkThread 9 0 5 false.

(** ** Histories of calls on the open files of one task *)

Inductive FileOp :=
  | FAdd (fd : OpenFileDescriptor)
  | FRemove (fd : OpenFileDescriptor).

Definition run_file_op (op : FileOp) (t : Task) : Task :=
  match op with
  | FAdd fd => addOpenFile fd t
  | FRemove fd => removeOpenFile fd t
  end.

Definition run_file_ops (ops : list FileOp) (t : Task) : Task :=
  foldl (λ t op, run_file_op op t) t ops.

(** What [Task.__init__] finds or creates in the swap directory for the
    task id [i]. *)
Definition swap_entry (i : Z) (w : Sim) : option File :=
  find (λ f, bool_decide (f_name f = pretty i)) (dir_entries "/swap" w).

(** The fields of a task that no method of Task assigns after
    construction. *)
Definition fixed_fields (t : Task) :=
  (t_id t, t_user t, t_nonPreemptive t, t_priority t,
   t_pageTable t, t_swapDirFile t, t_swapFile t).

(** The state [sim2] back in privileged mode with its task in register 1, as
    the interrupt layer sets it up for [killTask]. *)
Definition sim2_trap : Sim :=
  mkSim PrivilegedMode 3 2 4 false
    (λ n, if decide (n = 1%nat) then VTask 0 else VNone)
    (liveTasks sim2) (nextTaskId sim2) (tasks sim2) (nextObj sim2) (fs sim2)
    (calls sim2).

(** The invariant I2 of a task: the priority is -1 for a non-preemptive
    task and 0 for any other. *)
Definition priority_ok (t : Task) : Prop :=
  t_priority t = if t_nonPreemptive t then -1 else 0.

(** The open files of the task behind [r]. *)
Definition files_of (r : TaskRef) (w : Sim) : list OpenFileDescriptor :=
  from_option t_openFileDescriptor [] (tasks w !! r).

(** * Properties *)

(** ** Python lists *)

Section list_remove.
Context {A : Type} `{EqDecision A}.
Implicit Types (x y : A) (l : list A).

Lemma list_remove_Some x l :
  x ∈ l → ∃ l', list_remove x l = Some l' ∧ l ≡ₚ x :: l'.
Proof.
  induction l as [|y l IH]; intros Hin; [by apply elem_of_nil in Hin|].
  simpl. destruct (decide (y = x)) as [->|Hne]; [by eexists|].
  apply elem_of_cons in Hin as [->|Hin]; [done|].
  destruct (IH Hin) as (l' & -> & Hp). eexists; split; [done|].
  rewrite Hp. apply Permutation_swap.
Qed.

Lemma list_remove_None x l : (x ∉ l) → list_remove x l = None.
Proof.
  induction l as [|y l IH]; intros Hin; [done|].
  apply not_elem_of_cons in Hin as [Hne Hin]. simpl.
  rewrite decide_False by done. by rewrite IH.
Qed.

Lemma list_remove_sublist x l l' : list_remove x l = Some l' → sublist l' l.
Proof.
  revert l'. induction l as [|y l IH]; intros l'; simpl; [done|].
  destruct (decide (y = x)) as [->|Hne].
  - intros [= ->]. by apply sublist_cons.
  - destruct (list_remove x l) as [r|]; [|done].
    intros [= <-]. apply sublist_skip. by apply IH.
Qed.

Lemma list_remove_length x l l' :
  list_remove x l = Some l' → length l = S (length l').
Proof.
  revert l'. induction l as [|y l IH]; intros l'; simpl; [done|].
  destruct (decide (y = x)) as [->|Hne]; [by intros [= ->]|].
  destruct (list_remove x l) as [r|]; [|done].
  intros [= <-]. simpl. f_equal. by apply IH.
Qed.

Lemma list_remove_other x y l l' :
  list_remove x l = Some l' → y ≠ x → y ∈ l → y ∈ l'.
Proof.
  revert l'. induction l as [|z l IH]; intros l'; simpl; [done|].
  destruct (decide (z = x)) as [->|Hne].
  - intros [= ->] Hy Hin. apply elem_of_cons in Hin as [?|?]; [done|done].
  - destruct (list_remove x l) as [r|]; [|done].
    intros [= <-] Hy Hin. apply elem_of_cons in Hin as [->|Hin].
    + apply elem_of_cons. by left.
    + apply elem_of_cons. right. by apply IH.
Qed.

(** Removing the elements of a list one by one, in any order, each time
    the first occurrence, empties it. *)
Lemma remove_all_empty (m l : list A) :
  l ≡ₚ m →
  foldl (λ acc x, from_option id acc (list_remove x acc)) l m = [].
Proof.
  revert l. induction m as [|x m IH]; intros l Hp; simpl.
  - by apply Permutation_nil_r in Hp.
  - destruct (list_remove_Some x l) as (l' & -> & Hp').
    { rewrite Hp. apply elem_of_cons. by left. }
    simpl. apply IH. apply (inj (cons x)). by rewrite <- Hp'.
Qed.
End list_remove.

(** ** The store *)

Lemma alter_snoc {A} (f : A → A) (l : list A) (x : A) :
  alter f (length l) (l ++ [x]) = l ++ [f x].
Proof. by rewrite alter_app_r_alt, Nat.sub_diag by lia. Qed.

Lemma lookup_snoc {A} (l : list A) (x : A) : (l ++ [x]) !! length l = Some x.
Proof. rewrite lookup_app_r by lia. by rewrite Nat.sub_diag. Qed.

(** A loop of updates in place keeps whatever each update keeps. *)
Lemma foldl_alter_proj {B X} (F : B → Task → Task) (tgt : B → nat) (g : Task → X) :
  (∀ b t, g (F b t) = g t) →
  ∀ (l : list B) (ts : list Task) (r : nat),
    g <$> (foldl (λ ts b, alter (F b) (tgt b) ts) ts l !! r) = g <$> (ts !! r).
Proof.
  intros Hg. induction l as [|b l IH]; intros ts r; simpl; [done|].
  rewrite IH. destruct (decide (tgt b = r)) as [<-|Hne].
  - rewrite list_lookup_alter_eq. destruct (ts !! tgt b); simpl; [|done].
    by rewrite Hg.
  - by rewrite list_lookup_alter_ne.
Qed.

Lemma foldl_alter_proj_Some {B X} (F : B → Task → Task) (tgt : B → nat) (g : Task → X) :
  (∀ b t, g (F b t) = g t) →
  ∀ (l : list B) (ts : list Task) (r : nat) (t : Task),
    ts !! r = Some t →
    ∃ t', foldl (λ ts b, alter (F b) (tgt b) ts) ts l !! r = Some t' ∧ g t' = g t.
Proof.
  intros Hg l ts r t Ht.
  pose proof (foldl_alter_proj F tgt g Hg l ts r) as H. rewrite Ht in H.
  apply fmap_Some in H as (t' & ? & ?). eauto.
Qed.

(** A loop of updates of one object is a loop on that object. *)
Lemma foldl_alter_same {B} (F : B → Task → Task) (tgt : B → nat) (r : nat) :
  ∀ (l : list B) (ts : list Task) (t : Task),
    Forall (λ b, tgt b = r) l → ts !! r = Some t →
    foldl (λ ts b, alter (F b) (tgt b) ts) ts l !! r
    = Some (foldl (λ t b, F b t) t l).
Proof.
  induction l as [|b l IH]; intros ts t Hall Ht; simpl; [done|].
  apply Forall_cons in Hall as [<- Hall].
  apply IH; [done|]. by rewrite list_lookup_alter_eq, Ht.
Qed.

(** ** Running the collaborators' loops *)

Lemma for_each_Thread_kill (l : list Thread) (w : Sim) :
  for_each Thread_kill l w =
  (Ok tt, set_tasks (kill_threads l (tasks w))
            (set_calls (calls w ++ (EvThreadKill <$> l)) w)).
Proof.
  revert w. induction l as [|th l IH]; intros w; simpl.
  - unfold mret, M_ret. rewrite app_nil_r. by destruct w.
  - unfold mbind, M_bind, Thread_kill, log, update_task, modify. simpl.
    rewrite IH. simpl. by rewrite <- app_assoc.
Qed.

Lemma for_each_close (l : list OpenFileDescriptor) (w : Sim) :
  for_each OpenFileDescriptor_close l w =
  (Ok tt, set_tasks (close_files l (tasks w))
            (set_calls (calls w ++ (EvClose <$> l)) w)).
Proof.
  revert w. induction l as [|fd l IH]; intros w; simpl.
  - unfold mret, M_ret. rewrite app_nil_r. by destruct w.
  - unfold mbind, M_bind, OpenFileDescriptor_close, log, update_task, modify. simpl.
    rewrite IH. simpl. by rewrite <- app_assoc.
Qed.

Lemma removeThread_kept th t : kept_by_teardown (removeThread th t) = kept_by_teardown t.
Proof.
  unfold removeThread. destruct (t_activeThread t) as [a|]; [destruct (decide (th = a))|];
    destruct (list_remove _ _); done.
Qed.

Lemma removeThread_files th t :
  t_openFileDescriptor (removeThread th t) = t_openFileDescriptor t.
Proof.
  unfold removeThread. destruct (t_activeThread t) as [a|]; [destruct (decide (th = a))|];
    destruct (list_remove _ _); done.
Qed.

Lemma removeOpenFile_kept fd t : kept_by_teardown (removeOpenFile fd t) = kept_by_teardown t.
Proof. unfold removeOpenFile. by destruct (list_remove _ _). Qed.

Lemma removeOpenFile_threads fd t :
  t_threadsList (removeOpenFile fd t) = t_threadsList t.
Proof. unfold removeOpenFile. by destruct (list_remove _ _). Qed.

Lemma removeOpenFile_active fd t :
  t_activeThread (removeOpenFile fd t) = t_activeThread t.
Proof. unfold removeOpenFile. by destruct (list_remove _ _). Qed.

Lemma kill_run (r : TaskRef) (w : Sim) (t : Task) :
  tasks w !! r = Some t →
  kill r w =
  (Ok tt,
   let ts1 := alter (set_status TaskKill) r (tasks w) in
   let ts2 := kill_threads (reverse (t_threadsList t)) ts1 in
   let ts3 := close_files (reverse (t_openFileDescriptor t)) ts2 in
   mkSim (mode w) (maxNumTasks w) (maxNumThreads w) (numAddressBits w)
     (rescheduleNeeded w) (registers w) (filter (λ x, x ≠ r) (liveTasks w))
     (nextTaskId w) ts3 (nextObj w)
     (<[t_swapDirFile t :=
          filter (λ f, f_name f ≠ f_name (ofd_file (t_swapFile t)))
            (dir_entries (t_swapDirFile t) w)]> (fs w))
     (calls w ++ [EvSimTaskKill r] ++ (EvThreadKill <$> reverse (t_threadsList t))
        ++ (EvClose <$> reverse (t_openFileDescriptor t))
        ++ [EvDeallocatePages (t_pageTable t);
            EvRm (t_swapDirFile t) (t_swapFile t)])).
Proof.
  intros Ht. unfold kill, SimTask_kill, log, update_task, modify, get_task, gets.
  unfold mbind, M_bind. simpl.
  rewrite list_lookup_alter_eq, Ht. simpl.
  rewrite for_each_Thread_kill. simpl.
  set (ts1 := alter (set_status TaskKill) r (tasks w)).
  assert (Hts1 : ts1 !! r = Some (set_status TaskKill t)).
  { unfold ts1. by rewrite list_lookup_alter_eq, Ht. }
  destruct (foldl_alter_proj_Some removeThread th_task
              (λ t, (kept_by_teardown t, t_openFileDescriptor t))
              (λ b t, f_equal2 pair (removeThread_kept b t) (removeThread_files b t))
              (reverse (t_threadsList t)) ts1 r _ Hts1) as (t2 & Ht2 & Hk2).
  fold (kill_threads (reverse (t_threadsList t)) ts1) in Ht2.
  rewrite Ht2. simpl.
  assert (Hf2 := f_equal snd Hk2). apply (f_equal fst) in Hk2. simpl in Hf2, Hk2.
  rewrite for_each_close. simpl. unfold getOpenFileList. rewrite Hf2.
  set (ts2 := kill_threads _ ts1) in *.
  destruct (foldl_alter_proj_Some removeOpenFile ofd_task kept_by_teardown
              removeOpenFile_kept
              (reverse (t_openFileDescriptor t)) ts2 r _ Ht2) as (t3 & Ht3 & Hk3).
  fold (close_files (reverse (t_openFileDescriptor t)) ts2) in Ht3.
  rewrite Ht3. simpl. rewrite Hk2 in Hk3.
  unfold kept_by_teardown in Hk3. simpl in Hk3. injection Hk3 as _ _ _ _ _ _ -> -> ->.
  unfold deallocatePages, rm, log, modify. unfold mbind, M_bind. simpl.
  unfold dir_entries. simpl. by rewrite <- !app_assoc.
Qed.

Lemma removeThread_threads th t :
  t_threadsList (removeThread th t)
  = from_option id (t_threadsList t) (list_remove th (t_threadsList t)).
Proof.
  unfold removeThread. destruct (t_activeThread t) as [a|]; [destruct (decide (th = a))|];
    simpl; destruct (list_remove _ _); done.
Qed.

Lemma removeOpenFile_files fd t :
  t_openFileDescriptor (removeOpenFile fd t)
  = from_option id (t_openFileDescriptor t) (list_remove fd (t_openFileDescriptor t)).
Proof. unfold removeOpenFile. by destruct (list_remove _ _). Qed.

Lemma removeThread_all_threads (m : list Thread) (t : Task) :
  t_threadsList (foldl (λ t th, removeThread th t) t m)
  = foldl (λ acc x, from_option id acc (list_remove x acc)) (t_threadsList t) m.
Proof.
  revert t. induction m as [|th m IH]; intros t; simpl; [done|].
  by rewrite IH, removeThread_threads.
Qed.

Lemma removeOpenFile_all_files (m : list OpenFileDescriptor) (t : Task) :
  t_openFileDescriptor (foldl (λ t fd, removeOpenFile fd t) t m)
  = foldl (λ acc x, from_option id acc (list_remove x acc)) (t_openFileDescriptor t) m.
Proof.
  revert t. induction m as [|fd m IH]; intros t; simpl; [done|].
  by rewrite IH, removeOpenFile_files.
Qed.

(** ** C1: kill *)

(** C1.  Killing a task whose thread collection is [ths] and whose open-file
    collection is [fds] ends normally, leaves the task with status
    [TaskKill], and makes exactly these collaborator calls, in this order:
    the registry's kill hook, [Thread.kill] on each element of [ths] from
    the last created to the first, [close] on each element of [fds] from the
    last to the first, [deallocatePages] on the task's page table, and [rm]
    of the swap file in the swap directory.  Every position of a collection
    is visited once although each kill and each close removes its element
    from the collection: the store after the call is the one obtained by
    marking the task, then deregistering the threads, then the files, and
    the collections of threads and files that belong to the task end
    empty. *)
Theorem kill_tears_down_each_once (r : TaskRef) (w : Sim) (t : Task) :
  tasks w !! r = Some t →
  ∃ w' t',
    kill r w = (Ok tt, w') ∧
    tasks w' !! r = Some t' ∧
    t_status t' = TaskKill ∧
    calls w' =
      calls w ++ [EvSimTaskKill r]
        ++ (EvThreadKill <$> reverse (t_threadsList t))
        ++ (EvClose <$> reverse (t_openFileDescriptor t))
        ++ [EvDeallocatePages (t_pageTable t);
            EvRm (t_swapDirFile t) (t_swapFile t)] ∧
    tasks w' =
      close_files (reverse (t_openFileDescriptor t))
        (kill_threads (reverse (t_threadsList t))
           (alter (set_status TaskKill) r (tasks w))) ∧
    (Forall (λ th, th_task th = r) (t_threadsList t) → t_threadsList t' = []) ∧
    (Forall (λ fd, ofd_task fd = r) (t_openFileDescriptor t) →
     t_openFileDescriptor t' = []).
Proof.
  intros Ht. rewrite (kill_run r w t Ht). cbn zeta.
  set (ts1 := alter (set_status TaskKill) r (tasks w)).
  set (ts2 := kill_threads (reverse (t_threadsList t)) ts1).
  set (ts3 := close_files (reverse (t_openFileDescriptor t)) ts2).
  assert (Hts1 : ts1 !! r = Some (set_status TaskKill t)).
  { unfold ts1. by rewrite list_lookup_alter_eq, Ht. }
  destruct (foldl_alter_proj_Some removeThread th_task
              (λ t, (kept_by_teardown t, t_openFileDescriptor t))
              (λ b t, f_equal2 pair (removeThread_kept b t) (removeThread_files b t))
              (reverse (t_threadsList t)) ts1 r _ Hts1) as (t2 & Ht2 & Hk2).
  fold (kill_threads (reverse (t_threadsList t)) ts1) in Ht2. fold ts2 in Ht2.
  assert (Hf2 := f_equal snd Hk2). apply (f_equal fst) in Hk2. simpl in Hf2, Hk2.
  destruct (foldl_alter_proj_Some removeOpenFile ofd_task
              (λ t, (kept_by_teardown t, t_threadsList t))
              (λ b t, f_equal2 pair (removeOpenFile_kept b t) (removeOpenFile_threads b t))
              (reverse (t_openFileDescriptor t)) ts2 r _ Ht2) as (t3 & Ht3 & Hk3).
  fold (close_files (reverse (t_openFileDescriptor t)) ts2) in Ht3. fold ts3 in Ht3.
  assert (Hl3 := f_equal snd Hk3). apply (f_equal fst) in Hk3. simpl in Hl3, Hk3.
  exists (mkSim (mode w) (maxNumTasks w) (maxNumThreads w) (numAddressBits w)
     (rescheduleNeeded w) (registers w) (filter (λ x, x ≠ r) (liveTasks w))
     (nextTaskId w) ts3 (nextObj w)
     (<[t_swapDirFile t :=
          filter (λ f, f_name f ≠ f_name (ofd_file (t_swapFile t)))
            (dir_entries (t_swapDirFile t) w)]> (fs w))
     (calls w ++ [EvSimTaskKill r] ++ (EvThreadKill <$> reverse (t_threadsList t))
        ++ (EvClose <$> reverse (t_openFileDescriptor t))
        ++ [EvDeallocatePages (t_pageTable t);
            EvRm (t_swapDirFile t) (t_swapFile t)])), t3.
  simpl. split_and!; try done.
  - rewrite Hk2 in Hk3. unfold kept_by_teardown in Hk3. simpl in Hk3. congruence.
  - intros Hown. rewrite Hl3.
    assert (Ht2' : ts2 !! r = Some (foldl (λ t th, removeThread th t)
                                      (set_status TaskKill t) (reverse (t_threadsList t)))).
    { apply (foldl_alter_same removeThread th_task); [|done].
      by apply Forall_reverse. }
    rewrite Ht2 in Ht2'. injection Ht2' as ->.
    rewrite removeThread_all_threads. simpl.
    apply remove_all_empty. by rewrite reverse_Permutation.
  - intros Hown.
    assert (Ht3' : ts3 !! r = Some (foldl (λ t fd, removeOpenFile fd t)
                                      t2 (reverse (t_openFileDescriptor t)))).
    { apply (foldl_alter_same removeOpenFile ofd_task); [|done].
      by apply Forall_reverse. }
    rewrite Ht3 in Ht3'. injection Ht3' as ->.
    rewrite removeOpenFile_all_files, Hf2.
    apply remove_all_empty. by rewrite reverse_Permutation.
Qed.

(** ** Running the calls of a history *)

Lemma alter_dangling {A} (f : A → A) (l : list A) (i : nat) :
  l !! i = None → alter f i l = l.
Proof.
  revert i. induction l as [|x l IH]; intros [|i]; simpl; try done.
  intros H. f_equal. by apply IH.
Qed.

Lemma alter_at {A} (f g : A → A) (l : list A) (i : nat) (x : A) :
  l !! i = Some x → f x = g x → alter f i l = alter g i l.
Proof.
  revert i. induction l as [|y l IH]; intros [|i]; simpl; try done.
  - intros [= ->] Hfg. by rewrite Hfg.
  - intros H Hfg. f_equal. by apply IH.
Qed.

Lemma spawn_run (r : TaskRef) (w : Sim) (t : Task) :
  tasks w !! r = Some t →
  spawn r w =
  (Ok tt,
   if bool_decide (getNumThreads t < maxNumTasks w)
   then mkSim (mode w) (maxNumTasks w) (maxNumThreads w) (numAddressBits w)
          true (registers w) (liveTasks w) (nextTaskId w)
          (alter (spawn_task (nextObj w) r (maxNumTasks w)) r (tasks w))
          (S (nextObj w)) (fs w) (calls w ++ [EvSimTaskSpawn r])
   else set_calls (calls w ++ [EvSimTaskSpawn r]) w).
Proof.
  intros Ht.
  unfold spawn, SimTask_spawn, log, get_task, getMaxNumTasks, Thread_new, alloc_obj,
    update_task, setRescheduleNeeded, modify, gets.
  unfold mbind, M_bind. simpl. rewrite Ht. simpl.
  destruct (bool_decide (getNumThreads t < maxNumTasks w)) eqn:Hlt; simpl; [|done].
  rewrite list_alter_alter_eq.
  rewrite (alter_at _ (spawn_task (nextObj w) r (maxNumTasks w)) _ _ t Ht); [done|].
  unfold spawn_task. by rewrite Hlt.
Qed.

Lemma spawn_dangling (r : TaskRef) (w : Sim) :
  tasks w !! r = None →
  spawn r w = (Raise AttributeError, set_calls (calls w ++ [EvSimTaskSpawn r]) w).
Proof.
  intros Ht.
  unfold spawn, SimTask_spawn, log, get_task, modify, gets.
  unfold mbind, M_bind. simpl. by rewrite Ht.
Qed.

Lemma spawn_tasks (r : TaskRef) (w : Sim) :
  tasks (spawn r w).2 = alter (spawn_task (nextObj w) r (maxNumTasks w)) r (tasks w).
Proof.
  destruct (tasks w !! r) as [t|] eqn:Ht.
  - rewrite (spawn_run r w t Ht). simpl.
    destruct (bool_decide _) eqn:Hlt; simpl; [done|].
    symmetry. rewrite (alter_at _ id _ _ t Ht); [apply list_alter_id; done|].
    unfold spawn_task. by rewrite Hlt.
  - rewrite (spawn_dangling r w Ht). simpl. by rewrite alter_dangling.
Qed.

Lemma kill_dangling (r : TaskRef) (w : Sim) :
  tasks w !! r = None →
  kill r w =
  (Raise AttributeError,
   set_liveTasks (filter (λ x, x ≠ r) (liveTasks w))
     (set_calls (calls w ++ [EvSimTaskKill r]) w)).
Proof.
  intros Ht. unfold kill, SimTask_kill, log, update_task, modify, get_task, gets.
  unfold mbind, M_bind. simpl.
  rewrite list_lookup_alter_eq, Ht. simpl. rewrite alter_dangling by done.
  by destruct w.
Qed.

Lemma do_setActiveThread_tasks (r : TaskRef) (th : option Thread) (w : Sim) :
  tasks (do_setActiveThread r th w).2
  = alter (λ t, (setActiveThread th t).2) r (tasks w).
Proof.
  unfold do_setActiveThread, get_task, gets. unfold mbind, M_bind. simpl.
  destruct (tasks w !! r) as [t|] eqn:Ht; simpl.
  - destruct (setActiveThread th t) as [[[]|e] t'] eqn:Hs; simpl.
    + apply (alter_at _ _ _ _ t Ht). by rewrite Hs.
    + symmetry. rewrite (alter_at _ id _ _ t Ht); [apply list_alter_id; done|].
      rewrite Hs. simpl. unfold setActiveThread in Hs.
      destruct th as [x|]; [|done]. destruct (list_in _ _); [done|]. by injection Hs.
  - by rewrite alter_dangling.
Qed.

Lemma run_op_tasks (op : Op) (w : Sim) : tasks (run_op op w).2 = op_tasks op w.
Proof.
  destruct op as [r|r th|r th|r th|r]; simpl.
  - apply spawn_tasks.
  - done.
  - done.
  - apply do_setActiveThread_tasks.
  - destruct (tasks w !! r) as [t|] eqn:Ht.
    + by rewrite (kill_run r w t Ht).
    + by rewrite (kill_dangling r w Ht).
Qed.

Lemma run_op_nextObj (op : Op) (w : Sim) :
  nextObj (run_op op w).2 =
  match op with
  | OpSpawn r =>
      match tasks w !! r with
      | Some t => if bool_decide (getNumThreads t < maxNumTasks w)
                  then S (nextObj w) else nextObj w
      | None => nextObj w
      end
  | _ => nextObj w
  end.
Proof.
  destruct op as [r|r th|r th|r th|r]; simpl; try done.
  - destruct (tasks w !! r) as [t|] eqn:Ht.
    + rewrite (spawn_run r w t Ht). simpl. by destruct (bool_decide _).
    + by rewrite (spawn_dangling r w Ht).
  - unfold do_setActiveThread, get_task, gets. unfold mbind, M_bind. simpl.
    destruct (tasks w !! r) as [t|]; simpl; [|done].
    by destruct (setActiveThread th t) as [[[]|e] t'].
  - destruct (tasks w !! r) as [t|] eqn:Ht.
    + by rewrite (kill_run r w t Ht).
    + by rewrite (kill_dangling r w Ht).
Qed.

Lemma run_op_maxNumTasks (op : Op) (w : Sim) :
  maxNumTasks (run_op op w).2 = maxNumTasks w.
Proof.
  destruct op as [r|r th|r th|r th|r]; simpl; try done.
  - destruct (tasks w !! r) as [t|] eqn:Ht.
    + rewrite (spawn_run r w t Ht). simpl. by destruct (bool_decide _).
    + by rewrite (spawn_dangling r w Ht).
  - unfold do_setActiveThread, get_task, gets. unfold mbind, M_bind. simpl.
    destruct (tasks w !! r) as [t|]; simpl; [|done].
    by destruct (setActiveThread th t) as [[[]|e] t'].
  - destruct (tasks w !! r) as [t|] eqn:Ht.
    + by rewrite (kill_run r w t Ht).
    + by rewrite (kill_dangling r w Ht).
Qed.

(** ** How the tasks of the store evolve *)

Section evolution.
Variable R : Task → Task → Prop.
Context `{!PreOrder R}.

Lemma evolves_refl (ts : list Task) : Forall2 R ts ts.
Proof. apply Forall_Forall2_diag, Forall_true. intros t. reflexivity. Qed.

Lemma evolves_alter (ts0 ts : list Task) (f : Task → Task) (r : nat) :
  (∀ t, R t (f t)) → Forall2 R ts0 ts → Forall2 R ts0 (alter f r ts).
Proof.
  intros Hf H. apply Forall2_alter_r; [done|].
  intros x y _ _ Hxy. etransitivity; [exact Hxy|apply Hf].
Qed.

Lemma evolves_foldl {B} (F : B → Task → Task) (tgt : B → nat) (l : list B) :
  (∀ b t, R t (F b t)) →
  ∀ ts0 ts, Forall2 R ts0 ts →
    Forall2 R ts0 (foldl (λ ts b, alter (F b) (tgt b) ts) ts l).
Proof.
  intros HF. induction l as [|b l IH]; intros ts0 ts H; simpl; [done|].
  apply IH. by apply evolves_alter.
Qed.

Hypothesis R_removeThread : ∀ th t, R t (removeThread th t).
Hypothesis R_removeOpenFile : ∀ fd t, R t (removeOpenFile fd t).
Hypothesis R_set_status : ∀ s t, R t (set_status s t).

(** [kill] changes tasks by removals and by the status alone. *)
Lemma kill_evolves (r : TaskRef) (w : Sim) :
  Forall2 R (tasks w) (op_tasks (OpKill r) w).
Proof.
  simpl. destruct (tasks w !! r) as [t|]; [|apply evolves_refl].
  apply evolves_foldl; [done|]. apply evolves_foldl; [done|].
  apply evolves_alter; [done|]. apply evolves_refl.
Qed.

Hypothesis R_addThread : ∀ th t, R t (addThread th t).
Hypothesis R_bump : ∀ t, R t (set_nextThreadNum (t_nextThreadNum t + 1) t).
Hypothesis R_setActiveThread : ∀ th t, R t (setActiveThread th t).2.

Lemma run_op_evolves (op : Op) (w : Sim) :
  Forall2 R (tasks w) (tasks (run_op op w).2).
Proof.
  rewrite run_op_tasks. destruct op as [r|r th|r th|r th|r].
  - simpl. apply evolves_alter; [|apply evolves_refl].
    intros t. unfold spawn_task. destruct (bool_decide _); [|reflexivity].
    etransitivity; [apply R_addThread|].
    exact (R_bump (addThread _ t)).
  - apply evolves_alter; [done|apply evolves_refl].
  - apply evolves_alter; [done|apply evolves_refl].
  - apply evolves_alter; [|apply evolves_refl].
    intros t. apply R_setActiveThread.
  - apply kill_evolves.
Qed.

Lemma exec_evolves (ops : list Op) (w : Sim) :
  Forall2 R (tasks w) (tasks (exec ops w)).
Proof.
  revert w. induction ops as [|op ops IH]; intros w; simpl; [apply evolves_refl|].
  etransitivity; [apply run_op_evolves|apply IH].
Qed.
End evolution.

(** ** The system calls *)

Lemma create_run (np : bool) (w : Sim) :
  mode w = PrivilegedMode →
  Z.of_nat (length (liveTasks w)) < maxNumTasks w →
  ∃ w' t' th,
    create np w = (Ok (Some (length (tasks w))), w') ∧
    tasks w' = tasks w ++ [t'] ∧
    t_status t' = TaskReady ∧
    t_threadsList t' = [th] ∧
    th_id th = 0 ∧
    th_nonPreemptive th = np ∧
    t_priority t' = (if np then -1 else 0) ∧
    t_activeThread t' = None ∧
    t_nextThreadNum t' = 1 ∧
    t_user t' = registers w 6 ∧
    t_id t' = nextTaskId w ∧
    nextTaskId w' = nextTaskId w + 1 ∧
    liveTasks w' = liveTasks w ++ [length (tasks w)] ∧
    mode w' = UserMode.
Proof.
  intros Hm Hc. unfold create, getMode, getNumTasks, getMaxNumTasks, getRegister,
    getUniqueTaskId, registerTask, setUserMode, update_task, modify, gets.
  unfold mbind, M_bind. rewrite Hm. simpl.
  rewrite bool_decide_eq_true_2 by lia.
  unfold Task_init, PageTable_new, alloc_obj, getFullPathFile, getNumAddressBits,
    getFileEntry, newFile, File_open, alloc_obj, modify, gets.
  unfold mbind, M_bind, mret, M_ret. simpl.
  destruct (find _ _) as [f|]; simpl;
    (rewrite spawn_run with (t := mkTask TaskNew (nextTaskId w) (registers w 6) np
       (if np then -1 else 0) [] 0 _ None _ _ _) by apply lookup_snoc);
    simpl;
    (rewrite bool_decide_eq_true_2 by (unfold getNumThreads; simpl; lia));
    simpl; rewrite !alter_snoc;
    do 3 eexists; (split; [reflexivity|]); simpl; (split; [reflexivity|]);
    unfold spawn_task; simpl;
    (rewrite bool_decide_eq_true_2 by (unfold getNumThreads; simpl; lia));
    simpl; done.
Qed.

(** C2.  In privileged mode and below the maximum number of tasks,
    [create(False)] returns a new task: its status is [TaskReady], its
    thread collection holds exactly one thread and that thread has id 0,
    its priority is 0, its user is what register 6 held, its id is the one
    the registry issued ([getUniqueTaskId], which then moves on), the task
    is in the live-task table, and the mode is back to user mode. *)
Theorem create_gives_ready_task (w : Sim) :
  mode w = PrivilegedMode →
  Z.of_nat (length (liveTasks w)) < maxNumTasks w →
  ∃ r w' t' th,
    create false w = (Ok (Some r), w') ∧
    tasks w' !! r = Some t' ∧
    tasks w !! r = None ∧
    t_status t' = TaskReady ∧
    t_threadsList t' = [th] ∧
    th_id th = 0 ∧
    t_priority t' = 0 ∧
    (getRegister 6 w).1 = Ok (t_user t') ∧
    (getUniqueTaskId w).1 = Ok (t_id t') ∧
    nextTaskId w' = t_id t' + 1 ∧
    r ∈ liveTasks w' ∧
    mode w' = UserMode.
Proof.
  intros Hm Hc.
  destruct (create_run false w Hm Hc)
    as (w' & t' & th & Hrun & Hts & Hst & Hth & Hid & _ & Hpr & _ & _ & Hu & Hi & Hn & Hl & Hm').
  exists (length (tasks w)), w', t', th. split_and!; try done.
  - rewrite Hts. apply lookup_snoc.
  - by apply lookup_ge_None.
  - simpl. by rewrite Hu.
  - simpl. by rewrite Hi.
  - by rewrite Hn, Hi.
  - rewrite Hl. apply elem_of_app. right. by apply list_elem_of_singleton.
Qed.

Lemma create_gives_ready_task_witness :
  mode boot = PrivilegedMode ∧
  Z.of_nat (length (liveTasks boot)) < maxNumTasks boot ∧
  ∃ r w' t' th,
    create false boot = (Ok (Some r), w') ∧
    tasks w' !! r = Some t' ∧
    tasks boot !! r = None ∧
    t_status t' = TaskReady ∧
    t_threadsList t' = [th] ∧
    th_id th = 0 ∧
    t_priority t' = 0 ∧
    (getRegister 6 boot).1 = Ok (t_user t') ∧
    (getUniqueTaskId boot).1 = Ok (t_id t') ∧
    nextTaskId w' = t_id t' + 1 ∧
    r ∈ liveTasks w' ∧
    mode w' = UserMode.
Proof.
  split; [reflexivity|]. split; [reflexivity|].
  apply (create_gives_ready_task boot); reflexivity.
Defined.

(** C7.  In privileged mode with the live-task table at the configured
    maximum, [create] ends normally with [None]; the only change of state
    is the mode, set to user mode: nothing is allocated and nothing is
    registered. *)
Theorem create_at_capacity (np : bool) (w : Sim) :
  mode w = PrivilegedMode →
  maxNumTasks w ≤ Z.of_nat (length (liveTasks w)) →
  create np w = (Ok None, set_mode UserMode w).
Proof.
  intros Hm Hc. unfold create, getMode, getNumTasks, getMaxNumTasks, setUserMode,
    modify, gets.
  unfold mbind, M_bind. rewrite Hm. simpl.
  by rewrite bool_decide_eq_false_2 by lia.
Qed.

Lemma create_at_capacity_witness :
  mode boot_full = PrivilegedMode ∧
  maxNumTasks boot_full ≤ Z.of_nat (length (liveTasks boot_full)) ∧
  create true boot_full = (Ok None, set_mode UserMode boot_full).
Proof.
  split; [reflexivity|]. split; [simpl; lia|].
  apply (create_at_capacity true boot_full); [reflexivity|simpl; lia].
Defined.

(** C8.  Outside privileged mode [create] and [killTask] end with an
    [AssertionError] and leave the whole state as it was, whatever the
    state holds; in privileged mode neither ends with an
    [AssertionError]. *)
Theorem system_calls_assert_privileged_mode (np : bool) (w : Sim) :
  (mode w ≠ PrivilegedMode →
   create np w = (Raise AssertionError, w) ∧
   killTask w = (Raise AssertionError, w)) ∧
  (mode w = PrivilegedMode →
   (create np w).1 ≠ Raise AssertionError ∧
   (killTask w).1 ≠ Raise AssertionError).
Proof.
  split.
  - intros Hm. unfold create, killTask, getMode, gets. unfold mbind, M_bind. simpl.
    by rewrite !decide_False by done.
  - intros Hm. split.
    + destruct (decide (Z.of_nat (length (liveTasks w)) < maxNumTasks w)) as [Hc|Hc].
      * destruct (create_run np w Hm Hc) as (w' & t' & th & -> & _). done.
      * rewrite create_at_capacity by (done || lia). done.
    + unfold killTask, getMode, getRegister, setUserMode, modify, gets.
      unfold mbind, M_bind. rewrite Hm. simpl.
      destruct (registers w 1) as [|u|r]; simpl; try done.
      destruct (tasks w !! r) as [t|] eqn:Ht.
      * by rewrite (kill_run r w t Ht).
      * by rewrite (kill_dangling r w Ht).
Qed.

Lemma system_calls_assert_privileged_mode_witness :
  (mode (set_mode UserMode boot) ≠ PrivilegedMode ∧
   create false (set_mode UserMode boot) = (Raise AssertionError, set_mode UserMode boot) ∧
   killTask (set_mode UserMode boot) = (Raise AssertionError, set_mode UserMode boot)) ∧
  (mode boot = PrivilegedMode ∧
   (create false boot).1 ≠ Raise AssertionError ∧
   (killTask boot).1 ≠ Raise AssertionError).
Proof.
  split.
  - split; [done|].
    apply (system_calls_assert_privileged_mode false (set_mode UserMode boot)). done.
  - split; [reflexivity|].
    apply (system_calls_assert_privileged_mode false boot). reflexivity.
Defined.

Lemma sim2_task0_lookup : tasks sim2 !! 0%nat = Some sim2_task0.
Proof. reflexivity. Qed.

Lemma kill_tears_down_each_once_witness :
  tasks sim2 !! 0%nat = Some sim2_task0 ∧
  ∃ w' t',
    kill 0 sim2 = (Ok tt, w') ∧
    tasks w' !! 0%nat = Some t' ∧
    t_status t' = TaskKill ∧
    calls w' =
      calls sim2 ++ [EvSimTaskKill 0]
        ++ (EvThreadKill <$> reverse (t_threadsList sim2_task0))
        ++ (EvClose <$> reverse (t_openFileDescriptor sim2_task0))
        ++ [EvDeallocatePages (t_pageTable sim2_task0);
            EvRm (t_swapDirFile sim2_task0) (t_swapFile sim2_task0)] ∧
    tasks w' =
      close_files (reverse (t_openFileDescriptor sim2_task0))
        (kill_threads (reverse (t_threadsList sim2_task0))
           (alter (set_status TaskKill) 0%nat (tasks sim2))) ∧
    (Forall (λ th, th_task th = 0%nat) (t_threadsList sim2_task0) → t_threadsList t' = []) ∧
    (Forall (λ fd, ofd_task fd = 0%nat) (t_openFileDescriptor sim2_task0) →
     t_openFileDescriptor t' = []).
Proof.
  split; [reflexivity|].
  apply (kill_tears_down_each_once 0 sim2 sim2_task0). reflexivity.
Defined.

(** ** C3: spawn *)

(** What [spawn] does: the guard compares the thread-id counter with the
    maximum number of tasks. *)
Lemma spawn_adds_iff (r : TaskRef) (w : Sim) (t : Task) :
  tasks w !! r = Some t →
  (spawn r w).1 = Ok tt ∧
  threads_of r (spawn r w).2 =
    if bool_decide (t_nextThreadNum t < maxNumTasks w)
    then t_threadsList t ++ [mkThread (nextObj w) (t_nextThreadNum t) r (t_nonPreemptive t)]
    else t_threadsList t.
Proof.
  intros Ht. rewrite (spawn_run r w t Ht). split; [done|].
  unfold threads_of, getNumThreads. destruct (bool_decide _) eqn:Hlt; simpl.
  - rewrite list_lookup_alter_eq, Ht. simpl. unfold spawn_task, getNumThreads.
    by rewrite Hlt.
  - by rewrite Ht.
Qed.

(** C3, at a state the code can reach.  With a maximum of 2 threads and of 3
    tasks, a task that holds 2 threads gets a third one from [spawn]; and
    once its counter has reached 3, a task that holds no thread at all gets
    none. *)
Theorem spawn_guard_is_not_the_thread_maximum :
  (maxNumThreads sim2 = 2 ∧
   length (threads_of 0 sim2) = 2%nat ∧
   (spawn 0 sim2).1 = Ok tt ∧
   length (threads_of 0 (spawn 0 sim2).2) = 3%nat) ∧
  (let w := exec [OpSpawn 0; OpRemoveThread 0 (mkThread 2 0 0 false);
                  OpRemoveThread 0 (mkThread 3 1 0 false);
                  OpRemoveThread 0 (mkThread 4 2 0 false)] sim2 in
   maxNumThreads w = 2 ∧
   threads_of 0 w = [] ∧
   (spawn 0 w).1 = Ok tt ∧
   threads_of 0 (spawn 0 w).2 = []).
Proof. vm_compute. done. Qed.

(** ** C6: setActiveThread *)

Lemma setActiveThread_spec (t : Task) :
  setActiveThread None t = (Ok tt, set_activeThread None t) ∧
  (∀ x, x ∈ t_threadsList t →
     setActiveThread (Some x) t = (Ok tt, set_activeThread (Some x) t)) ∧
  (∀ x, (x ∉ t_threadsList t) →
     setActiveThread (Some x) t =
     (Raise (PyException "SimException: Thread DNE in List: " x), t)).
Proof.
  split; [done|]. unfold setActiveThread, list_in. split; intros x Hx.
  - by rewrite bool_decide_eq_true_2.
  - by rewrite bool_decide_eq_false_2.
Qed.

(** C6, at a state the code can reach.  Given a thread of another task,
    [setActiveThread] leaves the task as it was and raises the builtin
    [Exception], with a message that starts with the word SimException and
    ends with the thread; what it raises is no [SimException]. *)
Theorem setActiveThread_raises_builtin_Exception :
  setActiveThread (Some stranger) sim2_task0 =
    (Raise (PyException "SimException: Thread DNE in List: " stranger), sim2_task0) ∧
  ∀ msg, (setActiveThread (Some stranger) sim2_task0).1 ≠ Raise (SimException msg).
Proof. split; [reflexivity|]. intros msg. vm_compute. discriminate. Qed.

(** ** Reading one task of the store *)

Lemma evolves_lookup (R : Task → Task → Prop) (ts ts' : list Task) (r : nat) :
  Forall2 R ts ts' → option_Forall2 R (ts !! r) (ts' !! r).
Proof. intros H. by apply Forall2_lookup. Qed.

Lemma proj_alter {X} (g : Task → X) (d : X) (f : Task → Task) (ts : list Task) (r' r : nat) :
  (∀ t, g (f t) = g t) →
  from_option g d (alter f r' ts !! r) = from_option g d (ts !! r).
Proof.
  intros Hg. destruct (decide (r' = r)) as [->|Hne].
  - rewrite list_lookup_alter_eq. destruct (ts !! r); simpl; [apply Hg|done].
  - by rewrite list_lookup_alter_ne.
Qed.

Lemma removeThread_counter th t :
  t_nextThreadNum (removeThread th t) = t_nextThreadNum t.
Proof.
  unfold removeThread. destruct (t_activeThread t) as [a|]; [destruct (decide (th = a))|];
    destruct (list_remove _ _); done.
Qed.

Lemma removeOpenFile_counter fd t :
  t_nextThreadNum (removeOpenFile fd t) = t_nextThreadNum t.
Proof. unfold removeOpenFile. by destruct (list_remove _ _). Qed.

Lemma setActiveThread_counter th t :
  t_nextThreadNum (setActiveThread th t).2 = t_nextThreadNum t.
Proof. unfold setActiveThread. destruct th; [destruct (list_in _ _)|]; done. Qed.

Lemma setActiveThread_threads th t :
  t_threadsList (setActiveThread th t).2 = t_threadsList t.
Proof. unfold setActiveThread. destruct th; [destruct (list_in _ _)|]; done. Qed.

(** ** C4: the thread-id counter *)

Lemma spawned_spawn (r : TaskRef) (w : Sim) :
  spawned r (OpSpawn r) w =
  match tasks w !! r with
  | Some t =>
      if bool_decide (t_nextThreadNum t < maxNumTasks w)
      then [mkThread (nextObj w) (t_nextThreadNum t) r (t_nonPreemptive t)]
      else []
  | None => []
  end.
Proof.
  unfold spawned. rewrite decide_True by done. simpl.
  destruct (tasks w !! r) as [t|] eqn:Ht.
  - destruct (spawn_adds_iff r w t Ht) as [_ ->].
    unfold threads_of. rewrite Ht. simpl.
    destruct (bool_decide _).
    + by rewrite drop_app_length.
    + by rewrite drop_all.
  - rewrite (spawn_dangling r w Ht). unfold threads_of. simpl. by rewrite Ht.
Qed.

Lemma spawned_cases (r : TaskRef) (op : Op) (w : Sim) :
  spawned r op w = [] ∨
  ∃ th, spawned r op w = [th] ∧ th_id th = counter_of r w.
Proof.
  destruct op as [r'|r' th|r' th|r' th|r']; try (by left).
  destruct (decide (r' = r)) as [->|Hne].
  - rewrite spawned_spawn. unfold counter_of.
    destruct (tasks w !! r) as [t|]; [|by left].
    destruct (bool_decide _); [|by left]. right. by eexists.
  - left. unfold spawned. by rewrite decide_False.
Qed.

#[local] Instance counter_eq_preorder :
  PreOrder (λ t t' : Task, t_nextThreadNum t' = t_nextThreadNum t).
Proof. split; [by intros t|intros a b c; congruence]. Qed.

#[local] Instance counter_le_preorder :
  PreOrder (λ t t' : Task, t_nextThreadNum t ≤ t_nextThreadNum t').
Proof. split; [intros t; lia|intros a b c; lia]. Qed.

Lemma counter_step (r : TaskRef) (op : Op) (w : Sim) :
  counter_of r (run_op op w).2
  = counter_of r w + Z.of_nat (length (spawned r op w)).
Proof.
  unfold counter_of at 1. rewrite run_op_tasks.
  destruct op as [r'|r' th|r' th|r' th|r'].
  - destruct (decide (r' = r)) as [->|Hne].
    + rewrite spawned_spawn. simpl. rewrite list_lookup_alter_eq. unfold counter_of.
      destruct (tasks w !! r) as [t|]; simpl; [|done].
      unfold spawn_task, getNumThreads. destruct (bool_decide _); simpl; lia.
    + simpl. rewrite list_lookup_alter_ne by done. rewrite decide_False by done.
      simpl. unfold counter_of. lia.
  - simpl. rewrite proj_alter by done. unfold counter_of. lia.
  - simpl. rewrite proj_alter by apply removeThread_counter. unfold counter_of. lia.
  - simpl. rewrite proj_alter by apply setActiveThread_counter. unfold counter_of. lia.
  - pose proof (kill_evolves (λ t t', t_nextThreadNum t' = t_nextThreadNum t)
                  removeThread_counter removeOpenFile_counter (λ _ _, eq_refl) r' w) as H.
    apply (evolves_lookup _ _ _ r) in H. unfold counter_of.
    destruct H as [t t' H|]; simpl; lia.
Qed.

Lemma counter_exec (r : TaskRef) (ops : list Op) (w : Sim) :
  counter_of r (exec ops w)
  = counter_of r w + Z.of_nat (length (spawned_threads r ops w)).
Proof.
  revert w. induction ops as [|op ops IH]; intros w; simpl; [lia|].
  rewrite IH, counter_step, length_app. lia.
Qed.

Lemma StronglySorted_lt_NoDup (l : list Z) : StronglySorted Z.lt l → NoDup l.
Proof.
  induction 1 as [|x l _ IH Hx]; [apply NoDup_nil_2|].
  apply NoDup_cons. split; [|done].
  intros Hin. rewrite Forall_forall in Hx. specialize (Hx x Hin). lia.
Qed.

(** C4.  Whatever calls are made on the tasks of the store ([spawn],
    [addThread], [removeThread], [setActiveThread], [kill], on any task and
    in any order), the ids that [spawn] gives to the threads of one task
    are strictly increasing in the order of the calls, hence pairwise
    different; each lies between the counter before the history and the
    counter after it; and the counter of the task never goes down. *)
Theorem thread_ids_never_reused (r : TaskRef) (ops : list Op) (w : Sim) :
  StronglySorted Z.lt (th_id <$> spawned_threads r ops w) ∧
  NoDup (th_id <$> spawned_threads r ops w) ∧
  Forall (λ i, counter_of r w ≤ i < counter_of r (exec ops w))
    (th_id <$> spawned_threads r ops w) ∧
  counter_of r w ≤ counter_of r (exec ops w) ∧
  ∀ op, counter_of r w ≤ counter_of r (run_op op w).2.
Proof.
  assert (Hmono : ∀ ops w, counter_of r w ≤ counter_of r (exec ops w)).
  { intros ops' w'. rewrite counter_exec. lia. }
  assert (Hmain : StronglySorted Z.lt (th_id <$> spawned_threads r ops w) ∧
                  Forall (λ i, counter_of r w ≤ i < counter_of r (exec ops w))
                    (th_id <$> spawned_threads r ops w)).
  { revert w. induction ops as [|op ops IH]; intros w.
    - split; constructor.
    - destruct (IH (run_op op w).2) as [Hs Hb].
      pose proof (counter_step r op w) as Hstep.
      pose proof (Hmono ops (run_op op w).2) as Hm.
      change (exec (op :: ops) w) with (exec ops (run_op op w).2).
      cbn [spawned_threads]. rewrite fmap_app.
      destruct (spawned_cases r op w) as [Hnil|(th & Hone & Hid)].
      + rewrite Hnil in *. cbn [fmap list_fmap app length] in *.
        split; [done|]. eapply Forall_impl; [exact Hb|]. cbv beta. intros i Hi. lia.
      + rewrite Hone in *. cbn [fmap list_fmap app length] in *. rewrite Hid.
        split.
        * constructor; [done|]. eapply Forall_impl; [exact Hb|]. cbv beta. intros i Hi. lia.
        * constructor; [lia|]. eapply Forall_impl; [exact Hb|]. cbv beta. intros i Hi. lia. }
  destruct Hmain as [Hs Hb]. split_and!; try done.
  - by apply StronglySorted_lt_NoDup.
  - intros op. rewrite counter_step. lia.
Qed.

(** ** C5: the active thread *)

#[local] Instance active_ok_preorder :
  PreOrder (λ t t' : Task, active_ok t → active_ok t').
Proof. split; [by intros t|intros a b c; auto]. Qed.

Lemma addThread_active_ok th t : active_ok t → active_ok (addThread th t).
Proof.
  unfold active_ok, addThread. simpl. destruct (t_activeThread t) as [a|]; [|done].
  intros Ha. apply elem_of_app. by left.
Qed.

Lemma removeThread_active_ok th t : active_ok t → active_ok (removeThread th t).
Proof.
  unfold active_ok, removeThread.
  destruct (t_activeThread t) as [a|] eqn:Hact.
  - destruct (decide (th = a)) as [->|Hne]; simpl.
    + by destruct (list_remove a (t_threadsList t)).
    + destruct (list_remove th (t_threadsList t)) as [l|] eqn:Hrm; simpl;
        rewrite Hact; [|done].
      intros Ha. by apply (list_remove_other th a (t_threadsList t)).
  - destruct (list_remove th (t_threadsList t)); simpl; by rewrite Hact.
Qed.

Lemma removeThread_clears_active th t :
  t_activeThread t = Some th → t_activeThread (removeThread th t) = None.
Proof.
  intros Hact. unfold removeThread. rewrite Hact, decide_True by done. simpl.
  by destruct (list_remove th (t_threadsList t)).
Qed.

Lemma setActiveThread_active_ok th t :
  active_ok t → active_ok (setActiveThread th t).2.
Proof.
  unfold setActiveThread, list_in. destruct th as [x|]; [|done].
  destruct (bool_decide (x ∈ t_threadsList t)) eqn:Hin; [|done].
  intros _. by apply bool_decide_eq_true_1 in Hin.
Qed.

Lemma removeOpenFile_active_ok fd t : active_ok t → active_ok (removeOpenFile fd t).
Proof.
  unfold active_ok. by rewrite removeOpenFile_active, removeOpenFile_threads.
Qed.

(** C5.  The active thread of a task is none or a thread of its collection:
    [addThread], [removeThread] and [setActiveThread] keep it so, removing
    the active thread sets it to none, a task starts without an active
    thread, and the property holds of every task of the store after any
    history of calls and any [create], once it held before. *)
Theorem active_thread_is_member :
  (∀ th t, active_ok t → active_ok (addThread th t)) ∧
  (∀ th t, active_ok t → active_ok (removeThread th t)) ∧
  (∀ th t, t_activeThread t = Some th → t_activeThread (removeThread th t) = None) ∧
  (∀ th t, active_ok t → active_ok (setActiveThread th t).2) ∧
  (∀ ops w, Forall active_ok (tasks w) → Forall active_ok (tasks (exec ops w))) ∧
  (∀ np w, Forall active_ok (tasks w) → Forall active_ok (tasks (create np w).2)).
Proof.
  split_and!.
  - apply addThread_active_ok.
  - apply removeThread_active_ok.
  - apply removeThread_clears_active.
  - apply setActiveThread_active_ok.
  - intros ops w Hw.
    pose proof (exec_evolves (λ t t', active_ok t → active_ok t')
                  removeThread_active_ok removeOpenFile_active_ok (λ _ _ H, H)
                  addThread_active_ok (λ _ H, H) setActiveThread_active_ok ops w) as H.
    eapply Forall2_Forall_r; [exact H|].
    eapply Forall_impl; [exact Hw|]. simpl. auto.
  - intros np w Hw.
    destruct (decide (mode w = PrivilegedMode)) as [Hm|Hm].
    + destruct (decide (Z.of_nat (length (liveTasks w)) < maxNumTasks w)) as [Hc|Hc].
      * destruct (create_run np w Hm Hc)
          as (w' & t' & th & Hrun & Hts & _ & Hth & _ & _ & _ & Hact & _).
        rewrite Hrun. simpl. rewrite Hts. apply Forall_app. split; [done|].
        apply Forall_singleton. unfold active_ok. by rewrite Hact.
      * rewrite create_at_capacity by (done || lia). done.
    + unfold create, getMode, gets. unfold mbind, M_bind. simpl.
      by rewrite decide_False.
Qed.

Lemma sim2_tasks : tasks sim2 = [sim2_task0].
Proof. reflexivity. Qed.

Lemma active_thread_is_member_witness :
  active_ok sim2_task0 ∧
  active_ok (addThread stranger sim2_task0) ∧
  active_ok (removeThread (mkThread 2 0 0 false) sim2_task0) ∧
  active_ok (setActiveThread (Some stranger) sim2_task0).2 ∧
  Forall active_ok (tasks sim2) ∧
  Forall active_ok
    (tasks (exec [OpSetActiveThread 0 (Some (mkThread 2 0 0 false));
                  OpRemoveThread 0 (mkThread 2 0 0 false)] sim2)).
Proof.
  assert (H0 : active_ok sim2_task0) by exact I.
  assert (Hs : Forall active_ok (tasks sim2)).
  { rewrite sim2_tasks. apply Forall_singleton. exact I. }
  pose proof active_thread_is_member as (Ha & Hr & _ & Hset & Hexec & _).
  split; [exact H0|]. split; [exact (Ha _ _ H0)|]. split; [exact (Hr _ _ H0)|].
  split; [exact (Hset _ _ H0)|]. split; [exact Hs|]. exact (Hexec _ _ Hs).
Defined.

(** ** C9: duplicates in the thread collection *)

Lemma Forall_alter_strong {A} (P Q : A → Prop) (f : A → A) (l : list A) (i : nat) :
  Forall P l → (∀ x, P x → Q x) → (∀ x, l !! i = Some x → P x → Q (f x)) →
  Forall Q (alter f i l).
Proof.
  intros Hl HPQ. revert i.
  induction Hl as [|x l Hx Hl IH]; intros i Hf; [destruct i; constructor|].
  destruct i as [|i]; simpl; constructor.
  - by apply Hf.
  - eapply Forall_impl; [exact Hl|done].
  - by apply HPQ.
  - apply IH. intros y Hy. by apply Hf.
Qed.

#[local] Instance threads_shrink_preorder :
  PreOrder (λ t t' : Task, t_threadsList t' `sublist_of` t_threadsList t).
Proof. split; [by intros t|]. intros a b c Hab Hbc. by etransitivity. Qed.

Lemma removeThread_shrinks th t :
  t_threadsList (removeThread th t) `sublist_of` t_threadsList t.
Proof.
  rewrite removeThread_threads.
  destruct (list_remove th (t_threadsList t)) as [l|] eqn:Hrm; simpl; [|done].
  by apply (list_remove_sublist th).
Qed.

Lemma removeOpenFile_shrinks fd t :
  t_threadsList (removeOpenFile fd t) `sublist_of` t_threadsList t.
Proof. by rewrite removeOpenFile_threads. Qed.

Lemma threads_ok_at_shrink (n : nat) (t t' : Task) :
  t_threadsList t' `sublist_of` t_threadsList t →
  threads_ok_at n t → threads_ok_at n t'.
Proof.
  intros Hsub [Hnd Hall]. split; [by eapply sublist_NoDup|].
  rewrite Forall_forall in *. intros th Hth. apply Hall.
  by eapply elem_of_sublist.
Qed.

Lemma threads_ok_at_snoc (n : nat) (th : Thread) (t : Task) :
  (th ∉ t_threadsList t) → (th_obj th < n)%nat →
  threads_ok_at n t → threads_ok_at n (addThread th t).
Proof.
  intros Hnin Hlt [Hnd Hall]. unfold threads_ok_at, addThread. simpl. split.
  - apply NoDup_app. split_and!; [done| |apply NoDup_singleton].
    intros x Hx Hx'. apply list_elem_of_singleton in Hx'. by subst.
  - apply Forall_app. split; [done|]. by apply Forall_singleton.
Qed.

Lemma threads_ok_at_mono (n m : nat) (t : Task) :
  (n ≤ m)%nat → threads_ok_at n t → threads_ok_at m t.
Proof.
  intros Hnm [Hnd Hall]. split; [done|].
  eapply Forall_impl; [exact Hall|]. simpl. intros th Hth. lia.
Qed.

Lemma threads_ok_step (op : Op) (w : Sim) :
  threads_ok w → adds_absent [op] w → threads_ok (run_op op w).2.
Proof.
  unfold threads_ok. intros Hw [Hop _]. rewrite run_op_tasks, run_op_nextObj.
  destruct op as [r|r th|r th|r th|r].
  - simpl. destruct (tasks w !! r) as [t|] eqn:Ht.
    + destruct (bool_decide (getNumThreads t < maxNumTasks w)) eqn:Hlt.
      * eapply Forall_alter_strong; [exact Hw| |].
        { intros x. apply threads_ok_at_mono. lia. }
        intros x Hx Hok. rewrite Ht in Hx. injection Hx as <-.
        unfold spawn_task. rewrite Hlt.
        apply (threads_ok_at_snoc (S (nextObj w)) _ t); simpl; [|lia|].
        -- intros Hin. destruct Hok as [_ Hall]. rewrite Forall_forall in Hall.
           specialize (Hall _ Hin). simpl in Hall. lia.
        -- eapply threads_ok_at_mono; [|exact Hok]. lia.
      * apply Forall_alter; [done|]. intros x Hx Hok.
        rewrite Ht in Hx. injection Hx as <-. unfold spawn_task. by rewrite Hlt.
    + by rewrite alter_dangling.
  - simpl. destruct Hop as [Hnin Hal]. apply Forall_alter; [done|].
    intros x Hx Hok. apply threads_ok_at_snoc; [|exact Hal|done].
    unfold threads_of in Hnin. by rewrite Hx in Hnin.
  - simpl. apply Forall_alter; [done|]. intros x _.
    apply threads_ok_at_shrink, removeThread_shrinks.
  - simpl. apply Forall_alter; [done|]. intros x _.
    apply threads_ok_at_shrink. by rewrite setActiveThread_threads.
  - pose proof (kill_evolves (λ t t', t_threadsList t' `sublist_of` t_threadsList t)
                  removeThread_shrinks removeOpenFile_shrinks
                  (λ _ _, reflexivity _) r w) as H.
    eapply Forall2_Forall_r; [exact H|].
    eapply Forall_impl; [exact Hw|]. simpl.
    intros t Hok t' Hsub. by eapply threads_ok_at_shrink.
Qed.

(** C9, as stated, fails: [addThread] appends without looking, so adding
    the thread the task already holds puts it in the collection twice. *)
Lemma addThread_twice_duplicates :
  ¬ NoDup (threads_of 0 (exec [OpAddThread 0 (mkThread 2 0 0 false)] sim1)).
Proof.
  assert (H : threads_of 0 (exec [OpAddThread 0 (mkThread 2 0 0 false)] sim1)
              = [mkThread 2 0 0 false; mkThread 2 0 0 false]) by reflexivity.
  rewrite H. intros Hnd. apply NoDup_cons in Hnd as [Hin _].
  apply Hin, list_elem_of_singleton. reflexivity.
Qed.

(** C9, amended.  Starting from a store in which no thread collection holds
    a thread twice (and every thread held is an existing object), no thread
    collection holds a thread twice after a history of [spawn],
    [addThread], [removeThread], [setActiveThread] and [kill] calls in which
    every [addThread] is given an existing thread that the collection does
    not hold at that moment: [spawn] adds a newly constructed thread, and
    the other calls add none. *)
Theorem threads_unique_when_adds_are_absent (ops : list Op) (w : Sim) :
  threads_ok w → adds_absent ops w →
  threads_ok (exec ops w) ∧ ∀ r, NoDup (threads_of r (exec ops w)).
Proof.
  intros Hw Hops.
  assert (Hok : threads_ok (exec ops w)).
  { revert w Hw Hops. induction ops as [|op ops IH]; intros w Hw Hops; [done|].
    destruct Hops as [Hop Hops].
    change (exec (op :: ops) w) with (exec ops (run_op op w).2).
    apply IH; [|done]. apply threads_ok_step; [done|]. by split. }
  split; [done|]. intros r. unfold threads_of.
  destruct (tasks (exec ops w) !! r) as [t|] eqn:Ht; simpl; [|apply NoDup_nil_2].
  unfold threads_ok in Hok. rewrite Forall_forall in Hok.
  apply (Hok t). by eapply list_elem_of_lookup_2.
Qed.

Lemma sim1_tasks :
  tasks sim1 =
  [mkTask TaskReady 0 (VUser 7) false 0 [mkThread 2 0 0 false] 1
     [mkOFD 1 (mkFile "0" 16) 0] None (mkPageTable 0 0) "/swap"
     (mkOFD 1 (mkFile "0" 16) 0)].
Proof. reflexivity. Qed.

Lemma sim1_nextObj : nextObj sim1 = 3%nat.
Proof. reflexivity. Qed.

Lemma sim1_threads_ok : threads_ok sim1.
Proof.
  unfold threads_ok. rewrite sim1_tasks, sim1_nextObj.
  apply Forall_singleton. split; simpl.
  - apply NoDup_singleton.
  - apply Forall_singleton. simpl. lia.
Qed.

Lemma threads_unique_when_adds_are_absent_witness :
  threads_ok sim1 ∧
  adds_absent [OpSpawn 0; OpRemoveThread 0 (mkThread 2 0 0 false);
               OpAddThread 0 (mkThread 2 0 0 false); OpSpawn 0] sim1 ∧
  threads_ok (exec [OpSpawn 0; OpRemoveThread 0 (mkThread 2 0 0 false);
                    OpAddThread 0 (mkThread 2 0 0 false); OpSpawn 0] sim1) ∧
  ∀ r, NoDup (threads_of r
                (exec [OpSpawn 0; OpRemoveThread 0 (mkThread 2 0 0 false);
                       OpAddThread 0 (mkThread 2 0 0 false); OpSpawn 0] sim1)).
Proof.
  assert (Habs : adds_absent [OpSpawn 0; OpRemoveThread 0 (mkThread 2 0 0 false);
                              OpAddThread 0 (mkThread 2 0 0 false); OpSpawn 0] sim1).
  { cbn [adds_absent]. split_and!; try exact I.
    - assert (Hl : threads_of 0
                (run_op (OpRemoveThread 0 (mkThread 2 0 0 false))
                   (run_op (OpSpawn 0) sim1).2).2 = [mkThread 3 1 0 false])
        by reflexivity.
      rewrite Hl. intros Hin. apply list_elem_of_singleton in Hin. discriminate.
    - unfold allocated.
      assert (Hn : nextObj (run_op (OpRemoveThread 0 (mkThread 2 0 0 false))
                   (run_op (OpSpawn 0) sim1).2).2 = 4%nat) by reflexivity.
      rewrite Hn. simpl. lia. }
  split; [exact sim1_threads_ok|]. split; [exact Habs|].
  exact (threads_unique_when_adds_are_absent _ sim1 sim1_threads_ok Habs).
Defined.

(** ** C10: getNumThreads *)

#[local] Instance any_preorder : PreOrder (λ _ _ : Task, True).
Proof. by split. Qed.

Lemma run_op_is_Some (r : TaskRef) (op : Op) (w : Sim) :
  is_Some (tasks w !! r) → is_Some (tasks (run_op op w).2 !! r).
Proof.
  intros [t Ht].
  pose proof (run_op_evolves (λ _ _, True) (λ _ _, I) (λ _ _, I) (λ _ _, I)
                (λ _ _, I) (λ _, I) (λ _ _, I) op w) as H.
  apply (evolves_lookup _ _ _ r) in H. rewrite Ht in H.
  inversion H. by eexists.
Qed.

Lemma balance_step (r : TaskRef) (op : Op) (w : Sim) :
  is_Some (tasks w !! r) → is_kill op = false →
  Z.of_nat (length (threads_of r (run_op op w).2)) - counter_of r (run_op op w).2
  = Z.of_nat (length (threads_of r w)) - counter_of r w
    + added r [op] - removed r [op] w.
Proof.
  intros [t Ht] Hk. unfold threads_of, counter_of. rewrite run_op_tasks, Ht.
  destruct op as [r'|r' th|r' th|r' th|r']; [| | | |done];
    cbn [op_tasks added removed];
    (destruct (decide (r' = r)) as [->|Hne];
     [rewrite list_lookup_alter_eq, Ht|rewrite list_lookup_alter_ne, Ht by done]);
    simpl; try lia.
  - unfold spawn_task, getNumThreads. destruct (bool_decide _); simpl; [|lia].
    rewrite length_app. simpl. lia.
  - rewrite length_app. simpl. lia.
  - rewrite removeThread_threads, removeThread_counter.
    unfold threads_of, list_in. rewrite Ht. simpl.
    destruct (decide (th ∈ t_threadsList t)) as [Hin|Hnin].
    + rewrite bool_decide_eq_true_2 by done.
      destruct (list_remove_Some th _ Hin) as (l' & Hrm & _). rewrite Hrm. simpl.
      rewrite (list_remove_length th _ l' Hrm). lia.
    + rewrite bool_decide_eq_false_2 by done.
      rewrite list_remove_None by done. simpl. lia.
  - rewrite setActiveThread_threads, setActiveThread_counter. lia.
Qed.

Lemma balance_exec (r : TaskRef) (ops : list Op) (w : Sim) :
  is_Some (tasks w !! r) → forallb (λ op, negb (is_kill op)) ops = true →
  Z.of_nat (length (threads_of r (exec ops w))) - counter_of r (exec ops w)
  = Z.of_nat (length (threads_of r w)) - counter_of r w
    + added r ops - removed r ops w.
Proof.
  revert w. induction ops as [|op ops IH]; intros w Hr Hk; [simpl; lia|].
  apply andb_prop in Hk as [Hop Hk]. apply negb_true_iff in Hop.
  change (exec (op :: ops) w) with (exec ops (run_op op w).2).
  rewrite IH by (done || by apply run_op_is_Some).
  pose proof (balance_step r op w Hr Hop) as Hs.
  assert (Ha : added r (op :: ops) = added r [op] + added r ops).
  { destruct op; simpl; lia. }
  assert (Hrm : removed r (op :: ops) w
                = removed r [op] w + removed r ops (run_op op w).2).
  { cbn [removed]. lia. }
  lia.
Qed.

(** C10, as stated, fails in its last clause: after the stranger thread is
    added with [addThread] and removed again, [getNumThreads] equals the
    length of the thread collection although one thread was added other
    than via [spawn] and one thread was removed. *)
Lemma getNumThreads_equal_after_add_and_remove :
  let ops := [OpAddThread 0 stranger; OpRemoveThread 0 stranger] in
  ¬ (counter_of 0 (exec ops sim1) = Z.of_nat (length (threads_of 0 (exec ops sim1))) →
     added 0 ops = 0 ∧ removed 0 ops sim1 = 0).
Proof.
  intros ops H.
  assert (He : counter_of 0 (exec ops sim1)
               = Z.of_nat (length (threads_of 0 (exec ops sim1)))) by reflexivity.
  destruct (H He) as [Ha _]. discriminate Ha.
Qed.

(** C10, amended.  [getNumThreads] returns the thread-id counter, not the
    size of the thread collection: [addThread] and [removeThread] leave it
    as it is; over any history it grows by exactly the number of threads
    [spawn] created for the task, so it never decreases; and over a history
    of [spawn], [addThread], [removeThread] and [setActiveThread] calls the
    length of the collection minus the counter changes by the number of
    [addThread] calls minus the number of [removeThread] calls that found
    their thread, so that, starting from equality, the two are equal again
    exactly when as many threads were added as were removed. *)
Theorem getNumThreads_is_the_counter :
  (∀ t, getNumThreads t = t_nextThreadNum t) ∧
  (∀ th t, getNumThreads (addThread th t) = getNumThreads t) ∧
  (∀ th t, getNumThreads (removeThread th t) = getNumThreads t) ∧
  (∀ r ops w,
     counter_of r (exec ops w)
     = counter_of r w + Z.of_nat (length (spawned_threads r ops w))) ∧
  (∀ r ops w,
     is_Some (tasks w !! r) → forallb (λ op, negb (is_kill op)) ops = true →
     Z.of_nat (length (threads_of r (exec ops w))) - counter_of r (exec ops w)
     = Z.of_nat (length (threads_of r w)) - counter_of r w
       + added r ops - removed r ops w) ∧
  (∀ r ops w,
     is_Some (tasks w !! r) → forallb (λ op, negb (is_kill op)) ops = true →
     counter_of r w = Z.of_nat (length (threads_of r w)) →
     (counter_of r (exec ops w) = Z.of_nat (length (threads_of r (exec ops w)))
      ↔ added r ops = removed r ops w)).
Proof.
  split_and!.
  - done.
  - done.
  - intros th t. apply removeThread_counter.
  - apply counter_exec.
  - apply balance_exec.
  - intros r ops w Hr Hk Heq. pose proof (balance_exec r ops w Hr Hk). lia.
Qed.

Lemma getNumThreads_is_the_counter_witness :
  let ops := [OpSpawn 0; OpAddThread 0 stranger; OpRemoveThread 0 (mkThread 2 0 0 false);
              OpRemoveThread 0 stranger; OpRemoveThread 0 stranger] in
  is_Some (tasks sim1 !! 0%nat) ∧
  forallb (λ op, negb (is_kill op)) ops = true ∧
  counter_of 0 sim1 = Z.of_nat (length (threads_of 0 sim1)) ∧
  counter_of 0 (exec ops sim1)
  = counter_of 0 sim1 + Z.of_nat (length (spawned_threads 0 ops sim1)) ∧
  Z.of_nat (length (threads_of 0 (exec ops sim1))) - counter_of 0 (exec ops sim1)
  = Z.of_nat (length (threads_of 0 sim1)) - counter_of 0 sim1
    + added 0 ops - removed 0 ops sim1 ∧
  (counter_of 0 (exec ops sim1) = Z.of_nat (length (threads_of 0 (exec ops sim1)))
   ↔ added 0 ops = removed 0 ops sim1).
Proof.
  intros ops.
  assert (Hr : is_Some (tasks sim1 !! 0%nat)) by (rewrite sim1_tasks; by eexists).
  assert (Hk : forallb (λ op, negb (is_kill op)) ops = true) by reflexivity.
  assert (He : counter_of 0 sim1 = Z.of_nat (length (threads_of 0 sim1))) by reflexivity.
  pose proof getNumThreads_is_the_counter as (_ & _ & _ & Hc & Hb & Hiff).
  split; [exact Hr|]. split; [exact Hk|]. split; [exact He|].
  split; [exact (Hc 0%nat ops sim1)|]. split; [exact (Hb 0%nat ops sim1 Hr Hk)|].
  exact (Hiff 0%nat ops sim1 Hr Hk He).
Defined.

(** * Further properties of Tasks.py *)

(** ** Construction *)

Lemma Task_init_run (i : Z) (u : Value) (np : bool) (w : Sim) :
  Task_init i u np w =
  (Ok (length (tasks w)),
   let self := length (tasks w) in
   let file := default (mkFile (pretty i) (2 ^ numAddressBits w)) (swap_entry i w) in
   let fd := mkOFD (S (nextObj w)) file self in
   mkSim (mode w) (maxNumTasks w) (maxNumThreads w) (numAddressBits w)
     (rescheduleNeeded w) (registers w) (liveTasks w) (nextTaskId w)
     (tasks w ++
        [mkTask TaskNew i u np (if np then -1 else 0) [] 0 [fd] None
           (mkPageTable (nextObj w) self) "/swap" fd])
     (S (S (nextObj w)))
     (match swap_entry i w with
      | Some _ => fs w
      | None => <["/swap"%string := dir_entries "/swap" w ++
                    [mkFile (pretty i) (2 ^ numAddressBits w)]]> (fs w)
      end)
     (calls w)).
Proof.
  unfold Task_init, PageTable_new, alloc_obj, getFullPathFile, getNumAddressBits,
    getFileEntry, newFile, File_open, alloc_obj, modify, gets, swap_entry.
  unfold mbind, M_bind, mret, M_ret. simpl.
  change (dir_entries "/swap" (set_nextObj (S (nextObj w)) w))
    with (dir_entries "/swap" w).
  destruct (find _ (dir_entries "/swap" w)) as [f|]; reflexivity.
Qed.

(** X1.  [Task.__init__] always ends normally and appends one Task object
    to the store, leaving the existing ones as they are.  The new task has
    status [TaskNew], the given id, user and non-preemptive flag, priority
    -1 when non-preemptive and 0 otherwise, no thread, thread-id counter 0,
    no active thread, and exactly one open file, which is its swap file: a
    descriptor opened for this task on a file named [str(id)]. *)
Theorem Task_init_fresh (i : Z) (u : Value) (np : bool) (w : Sim) :
  ∃ w' t fd,
    Task_init i u np w = (Ok (length (tasks w)), w') ∧
    tasks w' = tasks w ++ [t] ∧
    getStatus t = TaskNew ∧ getId t = i ∧ getUser t = u ∧
    getNonPreemptive t = np ∧
    (getPriority t = -1 ↔ np = true) ∧ (getPriority t = 0 ↔ np = false) ∧
    getThreadList t = [] ∧ getNumThreads t = 0 ∧ getActiveThread t = None ∧
    getOpenFileList t = [fd] ∧ getSwapFile t = fd ∧
    ofd_task fd = length (tasks w) ∧
    f_name (ofd_file fd) = pretty i ∧
    pt_task (getPageTable t) = length (tasks w).
Proof.
  rewrite Task_init_run. cbn zeta. do 3 eexists.
  split; [reflexivity|]. simpl. split; [reflexivity|]. simpl.
  split_and!; try done.
  - by destruct np.
  - by destruct np.
  - unfold swap_entry. destruct (find _ _) as [f|] eqn:Hf; simpl; [|done].
    apply find_some in Hf as [_ Hn]. by apply bool_decide_eq_true_1 in Hn.
Qed.

(** X2.  The swap file is reused or created: when the swap directory
    already has an entry named [str(id)], [Task.__init__] opens the first
    such entry and leaves the file system as it was; otherwise it adds to
    the directory one file named [str(id)] of [2 ** getNumAddressBits()]
    bytes and opens that one. *)
Theorem Task_init_swap_file (i : Z) (u : Value) (np : bool) (w : Sim) :
  ∃ t, tasks (Task_init i u np w).2 !! length (tasks w) = Some t ∧
  match swap_entry i w with
  | Some f =>
      ofd_file (getSwapFile t) = f ∧ f ∈ dir_entries "/swap" w ∧
      fs (Task_init i u np w).2 = fs w
  | None =>
      (∀ f, f ∈ dir_entries "/swap" w → f_name f ≠ pretty i) ∧
      ofd_file (getSwapFile t) = mkFile (pretty i) (2 ^ numAddressBits w) ∧
      dir_entries "/swap" (Task_init i u np w).2
      = dir_entries "/swap" w ++ [mkFile (pretty i) (2 ^ numAddressBits w)]
  end.
Proof.
  rewrite Task_init_run. cbn zeta. simpl. eexists. split; [apply lookup_snoc|].
  unfold swap_entry. destruct (find _ _) as [f|] eqn:Hf; simpl.
  - split_and!; try done. apply find_some in Hf as [Hin _].
    by apply list_elem_of_In.
  - split_and!; try done.
    + intros f Hin Hn. apply list_elem_of_In in Hin.
      pose proof (find_none _ _ Hf f Hin) as Hb. simpl in Hb.
      by rewrite bool_decide_eq_true_2 in Hb.
    + unfold dir_entries. simpl. by rewrite lookup_insert_eq.
Qed.

(** ** The system calls, continued *)

(** X3.  Below capacity and in privileged mode, [create(nonPreemptive)]
    gives the new task the priority that goes with the flag (-1 when
    non-preemptive, 0 otherwise) and a first thread with id 0 that inherits
    the flag and belongs to the new task; the task's counter is then 1 and
    it has no active thread. *)
Theorem create_inherits_nonPreemptive (np : bool) (w : Sim) :
  mode w = PrivilegedMode →
  Z.of_nat (length (liveTasks w)) < maxNumTasks w →
  ∃ r w' t' th,
    create np w = (Ok (Some r), w') ∧
    tasks w' !! r = Some t' ∧
    getNonPreemptive t' = np ∧
    getPriority t' = (if np then -1 else 0) ∧
    getThreadList t' = [th] ∧
    th_id th = 0 ∧ th_nonPreemptive th = np ∧ th_task th = r ∧
    getThread 0 t' = Some th ∧
    getNumThreads t' = 1 ∧
    getActiveThread t' = None.
Proof.
  intros Hm Hc. unfold create, getMode, getNumTasks, getMaxNumTasks, getRegister,
    getUniqueTaskId, registerTask, setUserMode, update_task, modify, gets.
  unfold mbind, M_bind. rewrite Hm. simpl.
  rewrite bool_decide_eq_true_2 by lia.
  rewrite Task_init_run. cbn zeta. simpl.
  rewrite spawn_run with (t := mkTask TaskNew (nextTaskId w) (registers w 6) np
       (if np then -1 else 0) [] 0 _ None _ _ _) by apply lookup_snoc.
  simpl. rewrite bool_decide_eq_true_2 by (unfold getNumThreads; simpl; lia).
  simpl. rewrite !alter_snoc. unfold mret, M_ret.
  do 4 eexists. split; [reflexivity|]. simpl. rewrite lookup_snoc.
  split; [reflexivity|]. unfold spawn_task. simpl.
  rewrite bool_decide_eq_true_2 by (unfold getNumThreads; simpl; lia).
  simpl. split_and!; done.
Qed.

Lemma create_inherits_nonPreemptive_witness :
  mode boot = PrivilegedMode ∧
  Z.of_nat (length (liveTasks boot)) < maxNumTasks boot ∧
  ∃ r w' t' th,
    create true boot = (Ok (Some r), w') ∧
    tasks w' !! r = Some t' ∧
    getNonPreemptive t' = true ∧
    getPriority t' = -1 ∧
    getThreadList t' = [th] ∧
    th_id th = 0 ∧ th_nonPreemptive th = true ∧ th_task th = r ∧
    getThread 0 t' = Some th ∧
    getNumThreads t' = 1 ∧
    getActiveThread t' = None.
Proof.
  split; [reflexivity|]. split; [reflexivity|].
  apply (create_inherits_nonPreemptive true boot); reflexivity.
Defined.

(** X4.  A successful [create] touches no task that existed before: the
    store afterwards is the old store with the new task appended, the new
    reference is the first one the store did not have, and the only
    collaborator call recorded is the spawn hook of the new task. *)
Theorem create_keeps_existing_tasks (np : bool) (w : Sim) :
  mode w = PrivilegedMode →
  Z.of_nat (length (liveTasks w)) < maxNumTasks w →
  ∃ w' t',
    create np w = (Ok (Some (length (tasks w))), w') ∧
    tasks w' = tasks w ++ [t'] ∧
    (∀ r t, tasks w !! r = Some t → tasks w' !! r = Some t) ∧
    calls w' = calls w ++ [EvSimTaskSpawn (length (tasks w))] ∧
    rescheduleNeeded w' = true ∧
    maxNumTasks w' = maxNumTasks w ∧
    registers w' = registers w.
Proof.
  intros Hm Hc. unfold create, getMode, getNumTasks, getMaxNumTasks, getRegister,
    getUniqueTaskId, registerTask, setUserMode, update_task, modify, gets.
  unfold mbind, M_bind. rewrite Hm. simpl.
  rewrite bool_decide_eq_true_2 by lia.
  rewrite Task_init_run. cbn zeta. simpl.
  rewrite spawn_run with (t := mkTask TaskNew (nextTaskId w) (registers w 6) np
       (if np then -1 else 0) [] 0 _ None _ _ _) by apply lookup_snoc.
  simpl. rewrite bool_decide_eq_true_2 by (unfold getNumThreads; simpl; lia).
  simpl. rewrite !alter_snoc. unfold mret, M_ret.
  do 2 eexists. split; [reflexivity|]. simpl. split; [reflexivity|].
  split_and!; try done.
  intros r t Ht. by apply lookup_app_l_Some.
Qed.

Lemma create_keeps_existing_tasks_witness :
  mode (set_mode PrivilegedMode sim2) = PrivilegedMode ∧
  Z.of_nat (length (liveTasks (set_mode PrivilegedMode sim2)))
    < maxNumTasks (set_mode PrivilegedMode sim2) ∧
  ∃ w' t',
    create true (set_mode PrivilegedMode sim2)
      = (Ok (Some (length (tasks (set_mode PrivilegedMode sim2)))), w') ∧
    tasks w' = tasks (set_mode PrivilegedMode sim2) ++ [t'] ∧
    (∀ r t, tasks (set_mode PrivilegedMode sim2) !! r = Some t → tasks w' !! r = Some t) ∧
    calls w' = calls (set_mode PrivilegedMode sim2)
                 ++ [EvSimTaskSpawn (length (tasks (set_mode PrivilegedMode sim2)))] ∧
    rescheduleNeeded w' = true ∧
    maxNumTasks w' = maxNumTasks (set_mode PrivilegedMode sim2) ∧
    registers w' = registers (set_mode PrivilegedMode sim2).
Proof.
  split; [reflexivity|]. split; [reflexivity|].
  apply (create_keeps_existing_tasks true (set_mode PrivilegedMode sim2)); reflexivity.
Defined.

(** X5.  [killTask] in privileged mode: with nothing in register 1 it only
    switches to user mode; with a task in register 1 it runs [kill] on that
    task and then switches to user mode, so that the task ends with status
    [TaskKill]. *)
Theorem killTask_runs_kill_then_user_mode (w : Sim) :
  mode w = PrivilegedMode →
  (registers w 1 = VNone → killTask w = (Ok tt, set_mode UserMode w)) ∧
  (∀ r t, registers w 1 = VTask r → tasks w !! r = Some t →
     killTask w = (Ok tt, set_mode UserMode (kill r w).2) ∧
     mode (killTask w).2 = UserMode ∧
     getStatus <$> tasks (killTask w).2 !! r = Some TaskKill).
Proof.
  intros Hm. unfold killTask, getMode, getRegister, setUserMode, modify, gets.
  unfold mbind, M_bind. rewrite Hm. simpl. split.
  - by intros ->.
  - intros r t -> Ht. rewrite (kill_run r w t Ht). cbn zeta. simpl.
    split_and!; try done.
    set (ts1 := alter (set_status TaskKill) r (tasks w)).
    assert (Hts1 : ts1 !! r = Some (set_status TaskKill t)).
    { unfold ts1. by rewrite list_lookup_alter_eq, Ht. }
    destruct (foldl_alter_proj_Some removeThread th_task kept_by_teardown
                removeThread_kept (reverse (t_threadsList t)) ts1 r _ Hts1)
      as (t2 & Ht2 & Hk2).
    destruct (foldl_alter_proj_Some removeOpenFile ofd_task kept_by_teardown
                removeOpenFile_kept (reverse (t_openFileDescriptor t)) _ r _ Ht2)
      as (t3 & Ht3 & Hk3).
    unfold close_files, kill_threads. rewrite Ht3. simpl. f_equal.
    rewrite Hk2 in Hk3. unfold kept_by_teardown in Hk3. simpl in Hk3.
    unfold getStatus. congruence.
Qed.

Lemma killTask_runs_kill_then_user_mode_witness :
  (mode boot = PrivilegedMode ∧ registers boot 1 = VNone ∧
   killTask boot = (Ok tt, set_mode UserMode boot)) ∧
  (mode sim2_trap = PrivilegedMode ∧ registers sim2_trap 1 = VTask 0 ∧
   tasks sim2_trap !! 0%nat = Some sim2_task0 ∧
   killTask sim2_trap = (Ok tt, set_mode UserMode (kill 0 sim2_trap).2) ∧
   mode (killTask sim2_trap).2 = UserMode ∧
   getStatus <$> tasks (killTask sim2_trap).2 !! 0%nat = Some TaskKill).
Proof.
  split.
  - split; [reflexivity|]. split; [reflexivity|].
    apply (killTask_runs_kill_then_user_mode boot); reflexivity.
  - split; [reflexivity|]. split; [reflexivity|]. split; [reflexivity|].
    pose proof (killTask_runs_kill_then_user_mode sim2_trap eq_refl) as [_ H].
    apply (H 0%nat sim2_task0); reflexivity.
Defined.

(** ** Spawning, as the code does it *)

(** X6.  [spawn] on a task of the store always ends normally.  When the
    task's thread-id counter is below [Globals.getMaxNumTasks()], the thread
    collection gains, at its end, one new thread that belongs to the task,
    carries the old counter as its id and the task's non-preemptive flag;
    the counter grows by one and the reschedule flag is set.  Otherwise the
    only trace of the call is the spawn hook of the registry.  In both
    cases status, active thread, open files and every other task are left
    alone. *)
Theorem spawn_effect (r : TaskRef) (w : Sim) (t : Task) :
  tasks w !! r = Some t →
  ∃ w' t',
    spawn r w = (Ok tt, w') ∧ tasks w' !! r = Some t' ∧
    (∀ r0, r0 ≠ r → tasks w' !! r0 = tasks w !! r0) ∧
    getStatus t' = getStatus t ∧ getActiveThread t' = getActiveThread t ∧
    getOpenFileList t' = getOpenFileList t ∧
    mode w' = mode w ∧ liveTasks w' = liveTasks w ∧
    calls w' = calls w ++ [EvSimTaskSpawn r] ∧
    if bool_decide (getNumThreads t < maxNumTasks w) then
      ∃ th, getThreadList t' = getThreadList t ++ [th] ∧
            th_id th = getNumThreads t ∧
            th_nonPreemptive th = getNonPreemptive t ∧
            th_task th = r ∧ th_obj th = nextObj w ∧
            getNumThreads t' = getNumThreads t + 1 ∧
            rescheduleNeeded w' = true
    else w' = set_calls (calls w ++ [EvSimTaskSpawn r]) w.
Proof.
  intros Ht. rewrite (spawn_run r w t Ht).
  destruct (bool_decide (getNumThreads t < maxNumTasks w)) eqn:Hlt.
  - do 2 eexists. split; [reflexivity|]. simpl.
    rewrite list_lookup_alter_eq, Ht. simpl. split; [reflexivity|].
    unfold spawn_task. rewrite Hlt. simpl. split_and!; try done.
    + intros r0 Hne. by rewrite list_lookup_alter_ne.
    + by eexists.
  - exists (set_calls (calls w ++ [EvSimTaskSpawn r]) w), t. simpl.
    split_and!; done.
Qed.

Lemma spawn_effect_witness :
  tasks sim2 !! 0%nat = Some sim2_task0 ∧
  ∃ w' t',
    spawn 0 sim2 = (Ok tt, w') ∧ tasks w' !! 0%nat = Some t' ∧
    (∀ r0, r0 ≠ 0%nat → tasks w' !! r0 = tasks sim2 !! r0) ∧
    getStatus t' = getStatus sim2_task0 ∧
    getActiveThread t' = getActiveThread sim2_task0 ∧
    getOpenFileList t' = getOpenFileList sim2_task0 ∧
    mode w' = mode sim2 ∧ liveTasks w' = liveTasks sim2 ∧
    calls w' = calls sim2 ++ [EvSimTaskSpawn 0] ∧
    if bool_decide (getNumThreads sim2_task0 < maxNumTasks sim2) then
      ∃ th, getThreadList t' = getThreadList sim2_task0 ++ [th] ∧
            th_id th = getNumThreads sim2_task0 ∧
            th_nonPreemptive th = getNonPreemptive sim2_task0 ∧
            th_task th = 0%nat ∧ th_obj th = nextObj sim2 ∧
            getNumThreads t' = getNumThreads sim2_task0 + 1 ∧
            rescheduleNeeded w' = true
    else w' = set_calls (calls sim2 ++ [EvSimTaskSpawn 0]) sim2.
Proof.
  split; [reflexivity|]. apply (spawn_effect 0 sim2 sim2_task0). reflexivity.
Defined.

(** ** Looking a thread up by its id *)

Lemma find_thread_Some (i : Z) (l : list Thread) (th : Thread) :
  find_thread i l = Some th →
  ∃ l1 l2, l = l1 ++ th :: l2 ∧ th_id th = i ∧ Forall (λ x, th_id x ≠ i) l1.
Proof.
  induction l as [|x l IH]; simpl; [done|].
  destruct (decide (th_id x = i)) as [Hx|Hx].
  - intros [= ->]. exists [], l. by split_and!.
  - intros Hf. destruct (IH Hf) as (l1 & l2 & -> & Hid & Hl1).
    exists (x :: l1), l2. split_and!; [done|done|by constructor].
Qed.

Lemma find_thread_None (i : Z) (l : list Thread) :
  find_thread i l = None ↔ Forall (λ x, th_id x ≠ i) l.
Proof.
  induction l as [|x l IH]; simpl; [by split|].
  destruct (decide (th_id x = i)) as [Hx|Hx].
  - split; [done|]. intros H. by apply Forall_cons in H as [? _].
  - rewrite IH. split; [by constructor|]. intros H. by apply Forall_cons in H as [_ ?].
Qed.

(** X7.  [getThread(id)] returns the first thread of the collection whose
    id is the one asked for: the result is a thread of the collection with
    that id and no thread before it has that id; it returns [None] exactly
    when no thread of the collection has that id. *)
Theorem getThread_first_match (i : Z) (t : Task) :
  (∀ th, getThread i t = Some th →
     th ∈ getThreadList t ∧ th_id th = i ∧
     ∃ l1 l2, getThreadList t = l1 ++ th :: l2 ∧ Forall (λ x, th_id x ≠ i) l1) ∧
  (getThread i t = None ↔ ∀ th, th ∈ getThreadList t → th_id th ≠ i).
Proof.
  unfold getThread, getThreadList. split.
  - intros th Hf. destruct (find_thread_Some i _ th Hf) as (l1 & l2 & Hl & Hid & Hl1).
    split_and!; [|done|by exists l1, l2].
    rewrite Hl. apply elem_of_app. right. apply elem_of_cons. by left.
  - rewrite find_thread_None. apply Forall_forall.
Qed.

Lemma getThread_first_match_witness :
  getThread 1 sim2_task0 = Some (mkThread 3 1 0 false) ∧
  (mkThread 3 1 0 false ∈ getThreadList sim2_task0 ∧
   th_id (mkThread 3 1 0 false) = 1 ∧
   ∃ l1 l2, getThreadList sim2_task0 = l1 ++ mkThread 3 1 0 false :: l2
            ∧ Forall (λ x, th_id x ≠ 1) l1).
Proof.
  split; [reflexivity|].
  apply (getThread_first_match 1 sim2_task0). reflexivity.
Defined.

(** X8.  A thread that [spawn] has just created is found by its id: when
    the ids of the threads a task holds all lie below its counter (as they
    do while threads enter the collection through [spawn] alone), a
    successful [spawn] is followed by [getThread] returning the new thread
    for the old counter value, and the same property holds again. *)
Theorem getThread_finds_spawned (r : TaskRef) (w : Sim) (t : Task) :
  tasks w !! r = Some t →
  Forall (λ th, th_id th < getNumThreads t) (getThreadList t) →
  getNumThreads t < maxNumTasks w →
  ∃ t' th,
    tasks (spawn r w).2 !! r = Some t' ∧
    getThreadList t' = getThreadList t ++ [th] ∧
    getThread (getNumThreads t) t' = Some th ∧
    Forall (λ th, th_id th < getNumThreads t') (getThreadList t').
Proof.
  intros Ht Hids Hlt. rewrite (spawn_run r w t Ht).
  rewrite bool_decide_eq_true_2 by done. simpl.
  rewrite list_lookup_alter_eq, Ht. simpl. unfold spawn_task.
  rewrite bool_decide_eq_true_2 by done.
  do 2 eexists. split; [reflexivity|]. simpl. split; [reflexivity|].
  unfold getThread, getThreadList, getNumThreads in *. simpl. split.
  - induction (t_threadsList t) as [|x l IH]; simpl.
    + by rewrite decide_True.
    + apply Forall_cons in Hids as [Hx Hl].
      rewrite decide_False by lia. by apply IH.
  - apply Forall_app. split.
    + eapply Forall_impl; [exact Hids|]. simpl. intros x Hx. lia.
    + apply Forall_singleton. simpl. lia.
Qed.

Lemma getThread_finds_spawned_witness :
  tasks sim2 !! 0%nat = Some sim2_task0 ∧
  Forall (λ th, th_id th < getNumThreads sim2_task0) (getThreadList sim2_task0) ∧
  getNumThreads sim2_task0 < maxNumTasks sim2 ∧
  ∃ t' th,
    tasks (spawn 0 sim2).2 !! 0%nat = Some t' ∧
    getThreadList t' = getThreadList sim2_task0 ++ [th] ∧
    getThread (getNumThreads sim2_task0) t' = Some th ∧
    Forall (λ th, th_id th < getNumThreads t') (getThreadList t').
Proof.
  assert (Hids : Forall (λ th, th_id th < getNumThreads sim2_task0)
                   (getThreadList sim2_task0)).
  { repeat constructor. }
  split; [reflexivity|]. split; [exact Hids|]. split; [reflexivity|].
  apply (getThread_finds_spawned 0 sim2 sim2_task0); [reflexivity|exact Hids|reflexivity].
Defined.

(** ** Setting the active thread, as the code does it *)

(** X9.  [setActiveThread] succeeds exactly when its argument is [None] or
    a thread of the collection, and then [getActiveThread] returns the
    argument and nothing else of the task has changed; when it fails, the
    exception carries the offending thread and the task is as it was. *)
Theorem setActiveThread_succeeds_iff_member (th : option Thread) (t : Task) :
  ((setActiveThread th t).1 = Ok tt ↔
   th = None ∨ ∃ x, th = Some x ∧ x ∈ getThreadList t) ∧
  ((setActiveThread th t).1 = Ok tt →
   (setActiveThread th t).2 = set_activeThread th t ∧
   getActiveThread (setActiveThread th t).2 = th) ∧
  ((setActiveThread th t).1 ≠ Ok tt →
   ∃ x, th = Some x ∧
        setActiveThread th t
        = (Raise (PyException "SimException: Thread DNE in List: " x), t)).
Proof.
  unfold setActiveThread, list_in, getThreadList, getActiveThread.
  destruct th as [x|]; simpl.
  - destruct (decide (x ∈ t_threadsList t)) as [Hin|Hnin].
    + rewrite bool_decide_eq_true_2 by done. simpl. split_and!; try done.
      split; [|done]. intros _. right. by exists x.
    + rewrite bool_decide_eq_false_2 by done. simpl. split_and!; try done.
      * split; [done|]. intros [?|(y & [= <-] & Hy)]; done.
      * intros _. by exists x.
  - split_and!; try done. split; [|done]. intros _. by left.
Qed.

Lemma setActiveThread_succeeds_iff_member_witness :
  ((setActiveThread (Some (mkThread 3 1 0 false)) sim2_task0).1 = Ok tt ∧
   (setActiveThread (Some (mkThread 3 1 0 false)) sim2_task0).2
     = set_activeThread (Some (mkThread 3 1 0 false)) sim2_task0 ∧
   getActiveThread (setActiveThread (Some (mkThread 3 1 0 false)) sim2_task0).2
     = Some (mkThread 3 1 0 false)) ∧
  ((setActiveThread (Some stranger) sim2_task0).1 ≠ Ok tt ∧
   ∃ x, Some stranger = Some x ∧
        setActiveThread (Some stranger) sim2_task0
        = (Raise (PyException "SimException: Thread DNE in List: " x), sim2_task0)).
Proof.
  pose proof (setActiveThread_succeeds_iff_member (Some (mkThread 3 1 0 false)) sim2_task0)
    as (_ & Hok & _).
  pose proof (setActiveThread_succeeds_iff_member (Some stranger) sim2_task0)
    as (_ & _ & Hfail).
  split.
  - split; [reflexivity|]. apply Hok. reflexivity.
  - assert (Hne : (setActiveThread (Some stranger) sim2_task0).1 ≠ Ok tt)
      by discriminate.
    split; [exact Hne|]. exact (Hfail Hne).
Defined.

(** ** Maintaining the two collections *)

(** X10.  The open-file collection never holds a descriptor twice through
    [addOpenFile] and [removeOpenFile]: adding a descriptor that is present
    changes nothing, so adding twice is the same as adding once and the
    collection grows by at most one; and whatever sequence of the two calls
    is made on a task whose collection has no duplicate, it has none
    afterwards, while threads, counter and active thread stay as they
    were. *)
Theorem open_files_stay_unique (fd : OpenFileDescriptor) (ops : list FileOp) (t : Task) :
  (fd ∈ getOpenFileList t → addOpenFile fd t = t) ∧
  addOpenFile fd (addOpenFile fd t) = addOpenFile fd t ∧
  fd ∈ getOpenFileList (addOpenFile fd t) ∧
  (NoDup (getOpenFileList t) →
   NoDup (getOpenFileList (run_file_ops ops t))) ∧
  getThreadList (run_file_ops ops t) = getThreadList t ∧
  getNumThreads (run_file_ops ops t) = getNumThreads t ∧
  getActiveThread (run_file_ops ops t) = getActiveThread t.
Proof.
  assert (Hadd_in : ∀ t, fd ∈ getOpenFileList t → addOpenFile fd t = t).
  { intros t0 Hin. unfold addOpenFile, list_in.
    by rewrite bool_decide_eq_true_2. }
  assert (Hin_add : ∀ t, fd ∈ getOpenFileList (addOpenFile fd t)).
  { intros t0. unfold addOpenFile, list_in, getOpenFileList.
    destruct (decide (fd ∈ t_openFileDescriptor t0)) as [Hin|Hnin].
    - by rewrite bool_decide_eq_true_2.
    - rewrite bool_decide_eq_false_2 by done. simpl.
      apply elem_of_app. right. by apply list_elem_of_singleton. }
  split_and!.
  - apply Hadd_in.
  - apply Hadd_in, Hin_add.
  - apply Hin_add.
  - revert t. induction ops as [|op ops IH]; intros t Hnd; [done|].
    simpl. apply IH. destruct op as [fd'|fd']; simpl.
    + unfold addOpenFile, list_in, getOpenFileList in *.
      destruct (decide (fd' ∈ t_openFileDescriptor t)) as [Hin|Hnin].
      * by rewrite bool_decide_eq_true_2.
      * rewrite bool_decide_eq_false_2 by done. simpl.
        apply NoDup_app. split_and!; [done| |apply NoDup_singleton].
        intros x Hx Hx'. apply list_elem_of_singleton in Hx'. by subst.
    + unfold getOpenFileList in *. rewrite removeOpenFile_files.
      destruct (list_remove fd' (t_openFileDescriptor t)) as [l|] eqn:Hrm; simpl; [|done].
      eapply sublist_NoDup; [exact Hnd|]. by apply (list_remove_sublist fd').
  - revert t. induction ops as [|op ops IH]; intros t; [done|].
    simpl. rewrite IH. destruct op as [fd'|fd']; simpl.
    + unfold addOpenFile. by destruct (negb _).
    + apply removeOpenFile_threads.
  - revert t. induction ops as [|op ops IH]; intros t; [done|].
    simpl. rewrite IH. destruct op as [fd'|fd']; simpl.
    + unfold addOpenFile. by destruct (negb _).
    + apply removeOpenFile_counter.
  - revert t. induction ops as [|op ops IH]; intros t; [done|].
    simpl. rewrite IH. destruct op as [fd'|fd']; simpl.
    + unfold addOpenFile. by destruct (negb _).
    + apply removeOpenFile_active.
Qed.

Lemma open_files_stay_unique_witness :
  mkOFD 1 (mkFile "0" 16) 0 ∈ getOpenFileList sim2_task0 ∧
  addOpenFile (mkOFD 1 (mkFile "0" 16) 0) sim2_task0 = sim2_task0 ∧
  NoDup (getOpenFileList sim2_task0) ∧
  NoDup (getOpenFileList
           (run_file_ops [FAdd (mkOFD 8 (mkFile "a" 1) 0);
                          FAdd (mkOFD 8 (mkFile "a" 1) 0);
                          FRemove (mkOFD 1 (mkFile "0" 16) 0)] sim2_task0)).
Proof.
  assert (Hin : mkOFD 1 (mkFile "0" 16) 0 ∈ getOpenFileList sim2_task0).
  { apply list_elem_of_singleton. reflexivity. }
  assert (Hnd : NoDup (getOpenFileList sim2_task0)) by apply NoDup_singleton.
  pose proof (open_files_stay_unique (mkOFD 1 (mkFile "0" 16) 0)
                [FAdd (mkOFD 8 (mkFile "a" 1) 0);
                 FAdd (mkOFD 8 (mkFile "a" 1) 0);
                 FRemove (mkOFD 1 (mkFile "0" 16) 0)] sim2_task0)
    as (Hsame & _ & _ & Hops & _).
  split; [exact Hin|]. split; [exact (Hsame Hin)|]. split; [exact Hnd|].
  exact (Hops Hnd).
Defined.

(** X11.  Removing what is not there changes nothing and raises nothing:
    [removeOpenFile] with a descriptor the task does not hold returns the
    task as it was, and so does [removeThread] with a thread the task does
    not hold, unless that thread is the active thread, in which case the
    thread collection is still untouched and only the active thread is
    cleared. *)
Theorem removing_an_absent_item_is_a_no_op (th : Thread) (fd : OpenFileDescriptor) (t : Task) :
  ((fd ∉ getOpenFileList t) → removeOpenFile fd t = t) ∧
  ((th ∉ getThreadList t) → getThreadList (removeThread th t) = getThreadList t) ∧
  ((th ∉ getThreadList t) → getActiveThread t ≠ Some th → removeThread th t = t) ∧
  ((th ∉ getThreadList t) → getActiveThread t = Some th →
   removeThread th t = set_activeThread None t).
Proof.
  unfold getOpenFileList, getThreadList, getActiveThread. split_and!.
  - intros Hnin. unfold removeOpenFile. by rewrite list_remove_None.
  - intros Hnin. rewrite removeThread_threads. by rewrite list_remove_None.
  - intros Hnin Hact. unfold removeThread.
    destruct (t_activeThread t) as [a|].
    + rewrite decide_False by congruence. by rewrite list_remove_None.
    + by rewrite list_remove_None.
  - intros Hnin Hact. unfold removeThread. rewrite Hact, decide_True by done.
    simpl. by rewrite list_remove_None.
Qed.

Lemma removing_an_absent_item_is_a_no_op_witness :
  (mkOFD 8 (mkFile "a" 1) 0 ∉ getOpenFileList sim2_task0) ∧
  removeOpenFile (mkOFD 8 (mkFile "a" 1) 0) sim2_task0 = sim2_task0 ∧
  (stranger ∉ getThreadList sim2_task0) ∧
  getActiveThread sim2_task0 ≠ Some stranger ∧
  removeThread stranger sim2_task0 = sim2_task0.
Proof.
  assert (Hf : mkOFD 8 (mkFile "a" 1) 0 ∉ getOpenFileList sim2_task0).
  { intros Hin. apply list_elem_of_singleton in Hin. discriminate. }
  assert (Ht : stranger ∉ getThreadList sim2_task0).
  { intros Hin. apply elem_of_cons in Hin as [Hin|Hin]; [discriminate|].
    apply list_elem_of_singleton in Hin. discriminate. }
  assert (Ha : getActiveThread sim2_task0 ≠ Some stranger) by discriminate.
  pose proof (removing_an_absent_item_is_a_no_op stranger
                (mkOFD 8 (mkFile "a" 1) 0) sim2_task0) as (H1 & _ & H3 & _).
  split; [exact Hf|]. split; [exact (H1 Hf)|]. split; [exact Ht|].
  split; [exact Ha|]. exact (H3 Ht Ha).
Defined.

(** X12.  [removeThread] with a thread the task holds removes exactly one
    occurrence of it, the first one, and keeps the other threads in their
    order: the old collection is the new one with the thread put back
    before everything that followed it.  In particular a thread added with
    [addThread] to a task that did not hold it is taken out again by
    [removeThread], which gives back the collection as it was; the same
    holds for [addOpenFile] and [removeOpenFile]. *)
Theorem remove_takes_out_the_first_occurrence (th : Thread) (fd : OpenFileDescriptor) (t : Task) :
  (th ∈ getThreadList t →
   ∃ l1 l2, getThreadList t = l1 ++ th :: l2 ∧ (th ∉ l1) ∧
            getThreadList (removeThread th t) = l1 ++ l2) ∧
  ((th ∉ getThreadList t) →
   getThreadList (removeThread th (addThread th t)) = getThreadList t) ∧
  ((fd ∉ getOpenFileList t) → removeOpenFile fd (addOpenFile fd t) = t).
Proof.
  assert (Hsplit : ∀ {A} `{EqDecision A} (x : A) (l1 l2 : list A),
             (x ∉ l1) → list_remove x (l1 ++ x :: l2) = Some (l1 ++ l2)).
  { intros A ? x l1 l2. induction l1 as [|y l1 IH]; intros Hnin; simpl.
    - by rewrite decide_True.
    - apply not_elem_of_cons in Hnin as [Hne Hnin].
      rewrite decide_False by done. by rewrite IH. }
  unfold getThreadList, getOpenFileList. split_and!.
  - intros Hin. destruct (list_elem_of_split_l _ _ Hin) as (l1 & l2 & Hl & Hnin).
    exists l1, l2. split_and!; [done|done|].
    rewrite removeThread_threads, Hl, Hsplit by done. done.
  - intros Hnin. rewrite removeThread_threads. unfold addThread. simpl.
    rewrite Hsplit by done. simpl. apply app_nil_r.
  - intros Hnin. unfold addOpenFile, list_in.
    rewrite bool_decide_eq_false_2 by done. simpl.
    unfold removeOpenFile. simpl. rewrite Hsplit by done. simpl.
    rewrite app_nil_r. by destruct t.
Qed.

Lemma remove_takes_out_the_first_occurrence_witness :
  mkThread 2 0 0 false ∈ getThreadList sim2_task0 ∧
  (∃ l1 l2, getThreadList sim2_task0 = l1 ++ mkThread 2 0 0 false :: l2 ∧
            (mkThread 2 0 0 false ∉ l1) ∧
            getThreadList (removeThread (mkThread 2 0 0 false) sim2_task0) = l1 ++ l2) ∧
  (stranger ∉ getThreadList sim2_task0) ∧
  getThreadList (removeThread stranger (addThread stranger sim2_task0))
    = getThreadList sim2_task0 ∧
  (mkOFD 8 (mkFile "a" 1) 0 ∉ getOpenFileList sim2_task0) ∧
  removeOpenFile (mkOFD 8 (mkFile "a" 1) 0)
    (addOpenFile (mkOFD 8 (mkFile "a" 1) 0) sim2_task0) = sim2_task0.
Proof.
  assert (Hin : mkThread 2 0 0 false ∈ getThreadList sim2_task0).
  { apply elem_of_cons. by left. }
  assert (Hf : mkOFD 8 (mkFile "a" 1) 0 ∉ getOpenFileList sim2_task0).
  { intros H. apply list_elem_of_singleton in H. discriminate. }
  assert (Ht : stranger ∉ getThreadList sim2_task0).
  { intros H. apply elem_of_cons in H as [H|H]; [discriminate|].
    apply list_elem_of_singleton in H. discriminate. }
  pose proof (remove_takes_out_the_first_occurrence (mkThread 2 0 0 false)
                (mkOFD 8 (mkFile "a" 1) 0) sim2_task0) as (H1 & _ & H3).
  pose proof (remove_takes_out_the_first_occurrence stranger
                (mkOFD 8 (mkFile "a" 1) 0) sim2_task0) as (_ & H2 & _).
  split; [exact Hin|]. split; [exact (H1 Hin)|]. split; [exact Ht|].
  split; [exact (H2 Ht)|]. split; [exact Hf|]. exact (H3 Hf).
Defined.

(** ** What histories of calls keep *)

Section marking.
Variable R : Task → Task → Prop.
Context `{!PreOrder R}.
Hypothesis R_removeThread : ∀ th t, R t (removeThread th t).
Hypothesis R_removeOpenFile : ∀ fd t, R t (removeOpenFile fd t).
Hypothesis R_mark : ∀ t, R t (set_status TaskKill t).
Hypothesis R_addThread : ∀ th t, R t (addThread th t).
Hypothesis R_bump : ∀ t, R t (set_nextThreadNum (t_nextThreadNum t + 1) t).
Hypothesis R_setActiveThread : ∀ th t, R t (setActiveThread th t).2.

(** As [run_op_evolves], for a relation that allows the status to become
    [TaskKill] and nothing else. *)
Lemma run_op_marks (op : Op) (w : Sim) :
  Forall2 R (tasks w) (tasks (run_op op w).2).
Proof.
  rewrite run_op_tasks. destruct op as [r|r th|r th|r th|r].
  - simpl. apply evolves_alter; [done| |apply evolves_refl; done].
    intros t. unfold spawn_task. destruct (bool_decide _); [|reflexivity].
    etransitivity; [apply R_addThread|]. exact (R_bump (addThread _ t)).
  - apply evolves_alter; [done|done|by apply evolves_refl].
  - apply evolves_alter; [done|done|by apply evolves_refl].
  - apply evolves_alter; [done|done|by apply evolves_refl].
  - simpl. destruct (tasks w !! r) as [t|]; [|by apply evolves_refl].
    apply evolves_foldl; [done|done|]. apply evolves_foldl; [done|done|].
    apply evolves_alter; [done|done|by apply evolves_refl].
Qed.

Lemma exec_marks (ops : list Op) (w : Sim) :
  Forall2 R (tasks w) (tasks (exec ops w)).
Proof.
  revert w. induction ops as [|op ops IH]; intros w; simpl; [by apply evolves_refl|].
  etransitivity; [apply run_op_marks|apply IH].
Qed.
End marking.

(** Calls other than [kill] keep whatever [addThread], [removeThread],
    the counter increment and [setActiveThread] keep. *)
Lemma proj_step_no_kill {X} (g : Task → X) (d : X) :
  (∀ th t, g (addThread th t) = g t) →
  (∀ th t, g (removeThread th t) = g t) →
  (∀ t, g (set_nextThreadNum (t_nextThreadNum t + 1) t) = g t) →
  (∀ th t, g (setActiveThread th t).2 = g t) →
  ∀ r op w, is_kill op = false →
    from_option g d (tasks (run_op op w).2 !! r) = from_option g d (tasks w !! r).
Proof.
  intros Hadd Hrm Hbump Hset r op w Hk. rewrite run_op_tasks.
  destruct op as [r'|r' th|r' th|r' th|r']; [| | | |done]; simpl;
    apply proj_alter; [|done|done|done].
  intros t. unfold spawn_task. destruct (bool_decide _); [|done].
  etransitivity; [exact (Hbump (addThread _ t))|apply Hadd].
Qed.

Lemma proj_exec_no_kill {X} (g : Task → X) (d : X) :
  (∀ th t, g (addThread th t) = g t) →
  (∀ th t, g (removeThread th t) = g t) →
  (∀ t, g (set_nextThreadNum (t_nextThreadNum t + 1) t) = g t) →
  (∀ th t, g (setActiveThread th t).2 = g t) →
  ∀ r ops w, forallb (λ op, negb (is_kill op)) ops = true →
    from_option g d (tasks (exec ops w) !! r) = from_option g d (tasks w !! r).
Proof.
  intros Hadd Hrm Hbump Hset r ops. induction ops as [|op ops IH]; intros w Hk; [done|].
  apply andb_prop in Hk as [Hop Hk]. apply negb_true_iff in Hop.
  change (exec (op :: ops) w) with (exec ops (run_op op w).2).
  rewrite IH by done. by apply proj_step_no_kill.
Qed.

Lemma removeThread_status th t : t_status (removeThread th t) = t_status t.
Proof.
  unfold removeThread. destruct (t_activeThread t) as [a|]; [destruct (decide (th = a))|];
    destruct (list_remove _ _); done.
Qed.

Lemma removeOpenFile_status fd t : t_status (removeOpenFile fd t) = t_status t.
Proof. unfold removeOpenFile. by destruct (list_remove _ _). Qed.

Lemma setActiveThread_status th t : t_status (setActiveThread th t).2 = t_status t.
Proof. unfold setActiveThread. destruct th; [destruct (list_in _ _)|]; done. Qed.

Lemma setActiveThread_files th t :
  t_openFileDescriptor (setActiveThread th t).2 = t_openFileDescriptor t.
Proof. unfold setActiveThread. destruct th; [destruct (list_in _ _)|]; done. Qed.

Lemma setActiveThread_fixed th t :
  fixed_fields (setActiveThread th t).2 = fixed_fields t.
Proof. unfold setActiveThread. destruct th; [destruct (list_in _ _)|]; done. Qed.

Lemma removeThread_fixed th t : fixed_fields (removeThread th t) = fixed_fields t.
Proof.
  unfold removeThread. destruct (t_activeThread t) as [a|]; [destruct (decide (th = a))|];
    destruct (list_remove _ _); done.
Qed.

Lemma removeOpenFile_fixed fd t : fixed_fields (removeOpenFile fd t) = fixed_fields t.
Proof. unfold removeOpenFile. by destruct (list_remove _ _). Qed.

#[local] Instance status_preorder :
  PreOrder (λ t t' : Task, t_status t' = t_status t ∨ t_status t' = TaskKill).
Proof.
  split; [by left|]. intros a b c [Hab|Hab] [Hbc|Hbc]; rewrite ?Hbc, ?Hab; auto.
Qed.

#[local] Instance fixed_preorder :
  PreOrder (λ t t' : Task, fixed_fields t' = fixed_fields t).
Proof. split; [by intros t|intros a b c; congruence]. Qed.

(** X13.  The status of a task moves in one direction only.  Over any
    history of [spawn], [addThread], [removeThread], [setActiveThread] and
    [kill] calls on any tasks, the task behind a reference is still there
    and its status is what it was or [TaskKill]; so a killed task stays
    killed, and a history without [kill] changes no status. *)
Theorem status_changes_only_to_killed (r : TaskRef) (ops : list Op) (w : Sim) (t : Task) :
  tasks w !! r = Some t →
  ∃ t', tasks (exec ops w) !! r = Some t' ∧
        (getStatus t' = getStatus t ∨ getStatus t' = TaskKill) ∧
        (getStatus t = TaskKill → getStatus t' = TaskKill) ∧
        (forallb (λ op, negb (is_kill op)) ops = true → getStatus t' = getStatus t).
Proof.
  intros Ht.
  pose proof (exec_marks (λ t t', t_status t' = t_status t ∨ t_status t' = TaskKill)
                (λ th t, or_introl (removeThread_status th t))
                (λ fd t, or_introl (removeOpenFile_status fd t))
                (λ _, or_intror eq_refl) (λ _ _, or_introl eq_refl)
                (λ _, or_introl eq_refl)
                (λ th t, or_introl (setActiveThread_status th t)) ops w) as Hev.
  apply (evolves_lookup _ _ _ r) in Hev. rewrite Ht in Hev.
  inversion Hev as [? t' Hst Heq1 Heq2|]; subst. exists t'. unfold getStatus.
  split_and!; [done|done| |].
  - intros Hk. destruct Hst as [Hst|Hst]; congruence.
  - intros Hk.
    pose proof (proj_exec_no_kill t_status TaskNew (λ _ _, eq_refl) removeThread_status
                  (λ _, eq_refl) setActiveThread_status r ops w Hk) as Hp.
    rewrite Ht, <- Heq2 in Hp. exact Hp.
Qed.

Lemma status_changes_only_to_killed_witness :
  tasks sim2 !! 0%nat = Some sim2_task0 ∧
  ∃ t', tasks (exec [OpKill 0; OpSpawn 0; OpAddThread 0 stranger] sim2) !! 0%nat = Some t' ∧
        (getStatus t' = getStatus sim2_task0 ∨ getStatus t' = TaskKill) ∧
        (getStatus sim2_task0 = TaskKill → getStatus t' = TaskKill) ∧
        (forallb (λ op, negb (is_kill op)) [OpKill 0; OpSpawn 0; OpAddThread 0 stranger]
           = true → getStatus t' = getStatus sim2_task0).
Proof.
  split; [reflexivity|].
  apply (status_changes_only_to_killed 0 _ sim2 sim2_task0). reflexivity.
Defined.

(** X14.  No call changes what a task was constructed with: over any
    history of [spawn], [addThread], [removeThread], [setActiveThread] and
    [kill] calls, the id, user, non-preemptive flag, priority, page table,
    swap directory and swap file of a task are what they were; and a
    history without [kill] also leaves its open files as they were. *)
Theorem construction_data_is_immutable (r : TaskRef) (ops : list Op) (w : Sim) (t : Task) :
  tasks w !! r = Some t →
  ∃ t', tasks (exec ops w) !! r = Some t' ∧
        getId t' = getId t ∧ getUser t' = getUser t ∧
        getNonPreemptive t' = getNonPreemptive t ∧
        getPriority t' = getPriority t ∧
        getPageTable t' = getPageTable t ∧
        getSwapFile t' = getSwapFile t ∧
        t_swapDirFile t' = t_swapDirFile t ∧
        (forallb (λ op, negb (is_kill op)) ops = true →
         getOpenFileList t' = getOpenFileList t).
Proof.
  intros Ht.
  pose proof (exec_evolves (λ t t', fixed_fields t' = fixed_fields t)
                removeThread_fixed removeOpenFile_fixed (λ _ _, eq_refl)
                (λ _ _, eq_refl) (λ _, eq_refl) setActiveThread_fixed ops w) as Hev.
  apply (evolves_lookup _ _ _ r) in Hev. rewrite Ht in Hev.
  inversion Hev as [? t' Hfix Heq1 Heq2|]; subst. exists t'.
  unfold fixed_fields in Hfix. injection Hfix as Hi Hu Hn Hp Hpt Hd Hs.
  unfold getId, getUser, getNonPreemptive, getPriority, getPageTable, getSwapFile,
    getOpenFileList.
  split_and!; try done.
  intros Hk.
  pose proof (proj_exec_no_kill t_openFileDescriptor [] (λ _ _, eq_refl)
                removeThread_files (λ _, eq_refl) setActiveThread_files r ops w Hk) as Hp'.
  rewrite Ht, <- Heq2 in Hp'. exact Hp'.
Qed.

Lemma construction_data_is_immutable_witness :
  tasks sim2 !! 0%nat = Some sim2_task0 ∧
  ∃ t', tasks (exec [OpSpawn 0; OpRemoveThread 0 (mkThread 2 0 0 false); OpKill 0] sim2)
          !! 0%nat = Some t' ∧
        getId t' = getId sim2_task0 ∧ getUser t' = getUser sim2_task0 ∧
        getNonPreemptive t' = getNonPreemptive sim2_task0 ∧
        getPriority t' = getPriority sim2_task0 ∧
        getPageTable t' = getPageTable sim2_task0 ∧
        getSwapFile t' = getSwapFile sim2_task0 ∧
        t_swapDirFile t' = t_swapDirFile sim2_task0 ∧
        (forallb (λ op, negb (is_kill op))
           [OpSpawn 0; OpRemoveThread 0 (mkThread 2 0 0 false); OpKill 0] = true →
         getOpenFileList t' = getOpenFileList sim2_task0).
Proof.
  split; [reflexivity|].
  apply (construction_data_is_immutable 0 _ sim2 sim2_task0). reflexivity.
Defined.

#[local] Instance priority_ok_preorder :
  PreOrder (λ t t' : Task, priority_ok t → priority_ok t').
Proof. split; [by intros t|intros a b c; auto]. Qed.

(** X15.  The invariant I2 holds throughout: a task is constructed with
    priority -1 when it is non-preemptive and 0 otherwise, and when every
    task of the store has the priority that goes with its flag, so has
    every task after any history of calls and after any [create], whether
    it succeeds, is refused at capacity, or fails its assertion. *)
Theorem priority_follows_nonPreemptive (np : bool) (ops : list Op) (w : Sim) :
  Forall priority_ok (tasks w) →
  Forall priority_ok (tasks (exec ops w)) ∧
  Forall priority_ok (tasks (create np w).2) ∧
  Forall priority_ok (tasks (exec ops (create np w).2)).
Proof.
  assert (Hexec : ∀ w, Forall priority_ok (tasks w) →
                       Forall priority_ok (tasks (exec ops w))).
  { intros w0 Hw.
    assert (Hkeep : ∀ t t', fixed_fields t' = fixed_fields t →
                            priority_ok t → priority_ok t').
    { intros t t' Hf. unfold fixed_fields in Hf. injection Hf as _ _ Hn Hp _ _ _.
      unfold priority_ok. by rewrite Hn, Hp. }
    pose proof (exec_evolves (λ t t', fixed_fields t' = fixed_fields t)
                  removeThread_fixed removeOpenFile_fixed (λ _ _, eq_refl)
                  (λ _ _, eq_refl) (λ _, eq_refl) setActiveThread_fixed ops w0) as Hev.
    eapply Forall2_Forall_r; [exact Hev|].
    eapply Forall_impl; [exact Hw|]. simpl. intros t Ht t' Hf. by eapply Hkeep. }
  assert (Hcreate : Forall priority_ok (tasks w) →
                    Forall priority_ok (tasks (create np w).2)).
  { intros Hw. destruct (decide (mode w = PrivilegedMode)) as [Hm|Hm].
    - destruct (decide (Z.of_nat (length (liveTasks w)) < maxNumTasks w)) as [Hc|Hc].
      + destruct (create_run np w Hm Hc)
          as (w' & t' & th & Hrun & Hts & _ & _ & _ & _ & Hp & _ & _ & _ & _).
        rewrite Hrun. simpl. rewrite Hts. apply Forall_app. split; [done|].
        apply Forall_singleton.
        revert Hrun. unfold create, getMode, getNumTasks, getMaxNumTasks, getRegister,
          getUniqueTaskId, registerTask, setUserMode, update_task, modify, gets.
        unfold mbind, M_bind. rewrite Hm. simpl.
        rewrite bool_decide_eq_true_2 by lia.
        rewrite Task_init_run. cbn zeta. simpl.
        rewrite spawn_run with (t := mkTask TaskNew (nextTaskId w) (registers w 6) np
          (if np then -1 else 0) [] 0 _ None _ _ _) by apply lookup_snoc.
        simpl. rewrite bool_decide_eq_true_2 by (unfold getNumThreads; simpl; lia).
        simpl. rewrite !alter_snoc. unfold mret, M_ret. intros [= <-].
        simpl in Hts. apply app_inv_head in Hts. injection Hts as <-.
        unfold spawn_task. simpl.
        rewrite bool_decide_eq_true_2 by (unfold getNumThreads; simpl; lia).
        reflexivity.
      + rewrite create_at_capacity by (done || lia). done.
    - unfold create, getMode, gets. unfold mbind, M_bind. simpl.
      by rewrite decide_False. }
  intros Hw. split_and!; auto.
Qed.

Lemma priority_follows_nonPreemptive_witness :
  Forall priority_ok (tasks boot) ∧
  Forall priority_ok (tasks (exec [OpSpawn 0] boot)) ∧
  Forall priority_ok (tasks (create true boot).2) ∧
  Forall priority_ok (tasks (exec [OpSpawn 0] (create true boot).2)).
Proof.
  assert (H : Forall priority_ok (tasks boot)) by constructor.
  split; [exact H|]. exact (priority_follows_nonPreemptive true [OpSpawn 0] boot H).
Defined.

(** ** Killing, continued *)

Lemma foldl_alter_other {B} (F : B → Task → Task) (tgt : B → nat) (r r0 : nat) :
  r0 ≠ r →
  ∀ (l : list B) (ts : list Task),
    Forall (λ b, tgt b = r) l →
    foldl (λ ts b, alter (F b) (tgt b) ts) ts l !! r0 = ts !! r0.
Proof.
  intros Hne. induction l as [|b l IH]; intros ts Hall; simpl; [done|].
  apply Forall_cons in Hall as [Hb Hall].
  rewrite IH by done. apply list_lookup_alter_ne. congruence.
Qed.

Lemma removeOpenFile_all_threads (m : list OpenFileDescriptor) (t : Task) :
  t_threadsList (foldl (λ t fd, removeOpenFile fd t) t m) = t_threadsList t.
Proof.
  revert t. induction m as [|fd m IH]; intros t; simpl; [done|].
  by rewrite IH, removeOpenFile_threads.
Qed.

Lemma removeThread_all_kept (m : list Thread) (t : Task) :
  kept_by_teardown (foldl (λ t th, removeThread th t) t m) = kept_by_teardown t ∧
  t_openFileDescriptor (foldl (λ t th, removeThread th t) t m) = t_openFileDescriptor t.
Proof.
  revert t. induction m as [|th m IH]; intros t; simpl; [done|].
  destruct (IH (removeThread th t)) as [-> ->].
  by rewrite removeThread_kept, removeThread_files.
Qed.

Lemma removeOpenFile_all_kept (m : list OpenFileDescriptor) (t : Task) :
  kept_by_teardown (foldl (λ t fd, removeOpenFile fd t) t m) = kept_by_teardown t.
Proof.
  revert t. induction m as [|fd m IH]; intros t; simpl; [done|].
  by rewrite IH, removeOpenFile_kept.
Qed.

(** The task a kill leaves behind, when its threads and files are its
    own. *)
Lemma kill_final (r : TaskRef) (w : Sim) (t : Task) :
  tasks w !! r = Some t →
  Forall (λ th, th_task th = r) (t_threadsList t) →
  Forall (λ fd, ofd_task fd = r) (t_openFileDescriptor t) →
  ∃ t1, tasks (kill r w).2 !! r = Some t1 ∧
        t_threadsList t1 = [] ∧ t_openFileDescriptor t1 = [] ∧
        kept_by_teardown t1 = kept_by_teardown (set_status TaskKill t) ∧
        ∀ r0, r0 ≠ r → tasks (kill r w).2 !! r0 = tasks w !! r0.
Proof.
  intros Ht Hths Hfds. rewrite (kill_run r w t Ht). cbn zeta. simpl.
  set (ts1 := alter (set_status TaskKill) r (tasks w)).
  assert (Hts1 : ts1 !! r = Some (set_status TaskKill t)).
  { unfold ts1. by rewrite list_lookup_alter_eq, Ht. }
  assert (Ht2 : kill_threads (reverse (t_threadsList t)) ts1 !! r
                = Some (foldl (λ t th, removeThread th t)
                          (set_status TaskKill t) (reverse (t_threadsList t)))).
  { apply (foldl_alter_same removeThread th_task); [by apply Forall_reverse|done]. }
  set (t2 := foldl (λ t th, removeThread th t) (set_status TaskKill t)
               (reverse (t_threadsList t))) in *.
  assert (Ht3 : close_files (reverse (t_openFileDescriptor t))
                  (kill_threads (reverse (t_threadsList t)) ts1) !! r
                = Some (foldl (λ t fd, removeOpenFile fd t) t2
                          (reverse (t_openFileDescriptor t)))).
  { apply (foldl_alter_same removeOpenFile ofd_task); [by apply Forall_reverse|done]. }
  destruct (removeThread_all_kept (reverse (t_threadsList t)) (set_status TaskKill t))
    as [Hk2 Hf2]. fold t2 in Hk2, Hf2. simpl in Hf2.
  eexists. split; [exact Ht3|]. split_and!.
  - rewrite removeOpenFile_all_threads. unfold t2.
    rewrite removeThread_all_threads. simpl.
    apply remove_all_empty. by rewrite reverse_Permutation.
  - rewrite removeOpenFile_all_files, Hf2.
    apply remove_all_empty. by rewrite reverse_Permutation.
  - by rewrite removeOpenFile_all_kept.
  - intros r0 Hne. unfold close_files, kill_threads.
    rewrite (foldl_alter_other removeOpenFile ofd_task r r0 Hne)
      by (by apply Forall_reverse).
    rewrite (foldl_alter_other removeThread th_task r r0 Hne)
      by (by apply Forall_reverse).
    unfold ts1. by apply list_lookup_alter_ne.
Qed.

(** X16.  [kill] does not look at the status: called again on a task it
    has already killed, whose threads and files were its own, it ends
    normally once more, calls the registry's kill hook, deallocates the
    same page table and removes the same swap file a second time, kills no
    thread and closes no file, and leaves every task as it was. *)
Theorem second_kill_releases_again (r : TaskRef) (w : Sim) (t : Task) :
  tasks w !! r = Some t →
  Forall (λ th, th_task th = r) (t_threadsList t) →
  Forall (λ fd, ofd_task fd = r) (t_openFileDescriptor t) →
  ∃ w1 w2,
    kill r w = (Ok tt, w1) ∧ kill r w1 = (Ok tt, w2) ∧
    calls w2 = calls w1 ++ [EvSimTaskKill r; EvDeallocatePages (t_pageTable t);
                            EvRm (t_swapDirFile t) (t_swapFile t)] ∧
    tasks w2 = tasks w1.
Proof.
  intros Ht Hths Hfds.
  destruct (kill_final r w t Ht Hths Hfds) as (t1 & Ht1 & Hl1 & Hf1 & Hk1 & _).
  assert (Hrun := kill_run r w t Ht).
  destruct (kill r w) as [res w1] eqn:Hkill. injection Hrun as -> Hw1.
  simpl in Ht1. exists w1. rewrite (kill_run r w1 t1 Ht1). cbn zeta.
  rewrite Hl1, Hf1. eexists. split; [reflexivity|]. split; [reflexivity|].
  unfold kept_by_teardown in Hk1. simpl in Hk1.
  injection Hk1 as Hst _ _ _ _ _ Hpt Hd Hs. simpl.
  rewrite Hpt, Hd, Hs. split; [done|].
  rewrite (alter_at _ id _ _ t1 Ht1); [apply list_alter_id; done|].
  destruct t1. simpl in *. by rewrite Hst.
Qed.

Lemma second_kill_releases_again_witness :
  tasks sim2 !! 0%nat = Some sim2_task0 ∧
  Forall (λ th, th_task th = 0%nat) (t_threadsList sim2_task0) ∧
  Forall (λ fd, ofd_task fd = 0%nat) (t_openFileDescriptor sim2_task0) ∧
  ∃ w1 w2,
    kill 0 sim2 = (Ok tt, w1) ∧ kill 0 w1 = (Ok tt, w2) ∧
    calls w2 = calls w1 ++ [EvSimTaskKill 0; EvDeallocatePages (t_pageTable sim2_task0);
                            EvRm (t_swapDirFile sim2_task0) (t_swapFile sim2_task0)] ∧
    tasks w2 = tasks w1.
Proof.
  assert (H1 : Forall (λ th, th_task th = 0%nat) (t_threadsList sim2_task0))
    by (repeat constructor).
  assert (H2 : Forall (λ fd, ofd_task fd = 0%nat) (t_openFileDescriptor sim2_task0))
    by (repeat constructor).
  split; [reflexivity|]. split; [exact H1|]. split; [exact H2|].
  exact (second_kill_releases_again 0 sim2 sim2_task0 eq_refl H1 H2).
Defined.

(** X17.  [kill] of a task whose threads and files are its own touches no
    other task: every other reference of the store leads to the task it
    led to before; the killed task keeps its identity, user, priority,
    counter, page table and swap file, and ends with status [TaskKill]. *)
Theorem kill_leaves_other_tasks_alone (r : TaskRef) (w : Sim) (t : Task) :
  tasks w !! r = Some t →
  Forall (λ th, th_task th = r) (t_threadsList t) →
  Forall (λ fd, ofd_task fd = r) (t_openFileDescriptor t) →
  (∀ r0, r0 ≠ r → tasks (kill r w).2 !! r0 = tasks w !! r0) ∧
  length (tasks (kill r w).2) = length (tasks w) ∧
  ∃ t1, tasks (kill r w).2 !! r = Some t1 ∧
        getStatus t1 = TaskKill ∧ getId t1 = getId t ∧ getUser t1 = getUser t ∧
        getPriority t1 = getPriority t ∧ getNumThreads t1 = getNumThreads t ∧
        getPageTable t1 = getPageTable t ∧ getSwapFile t1 = getSwapFile t.
Proof.
  intros Ht Hths Hfds.
  destruct (kill_final r w t Ht Hths Hfds) as (t1 & Ht1 & _ & _ & Hk1 & Hother).
  split; [exact Hother|]. split.
  - pose proof (kill_evolves (λ _ _, True) (λ _ _, I) (λ _ _, I) (λ _ _, I) r w) as H.
    rewrite <- (run_op_tasks (OpKill r) w) in H. symmetry.
    exact (Forall2_length _ _ _ H).
  - exists t1. split; [exact Ht1|].
    unfold kept_by_teardown in Hk1. simpl in Hk1.
    injection Hk1 as Hst Hi Hu _ Hp Hn Hpt _ Hs.
    unfold getStatus, getId, getUser, getPriority, getNumThreads, getPageTable,
      getSwapFile. by split_and!.
Qed.

Lemma kill_leaves_other_tasks_alone_witness :
  tasks sim2 !! 0%nat = Some sim2_task0 ∧
  Forall (λ th, th_task th = 0%nat) (t_threadsList sim2_task0) ∧
  Forall (λ fd, ofd_task fd = 0%nat) (t_openFileDescriptor sim2_task0) ∧
  (∀ r0, r0 ≠ 0%nat → tasks (kill 0 sim2).2 !! r0 = tasks sim2 !! r0) ∧
  length (tasks (kill 0 sim2).2) = length (tasks sim2) ∧
  ∃ t1, tasks (kill 0 sim2).2 !! 0%nat = Some t1 ∧
        getStatus t1 = TaskKill ∧ getId t1 = getId sim2_task0 ∧
        getUser t1 = getUser sim2_task0 ∧
        getPriority t1 = getPriority sim2_task0 ∧
        getNumThreads t1 = getNumThreads sim2_task0 ∧
        getPageTable t1 = getPageTable sim2_task0 ∧
        getSwapFile t1 = getSwapFile sim2_task0.
Proof.
  assert (H1 : Forall (λ th, th_task th = 0%nat) (t_threadsList sim2_task0))
    by (repeat constructor).
  assert (H2 : Forall (λ fd, ofd_task fd = 0%nat) (t_openFileDescriptor sim2_task0))
    by (repeat constructor).
  split; [reflexivity|]. split; [exact H1|]. split; [exact H2|].
  exact (kill_leaves_other_tasks_alone 0 sim2 sim2_task0 eq_refl H1 H2).
Defined.

(** ** How many threads a task can spawn *)

(** X18.  Because the guard of [spawn] compares the thread-id counter with
    [Globals.getMaxNumTasks()], and nothing ever lowers the counter, a task
    whose counter is within that maximum keeps it within that maximum over
    any history of calls: in its whole life it gets at most
    [getMaxNumTasks()] threads from [spawn], however many of them have been
    removed in between. *)
Theorem spawn_count_is_bounded (r : TaskRef) (ops : list Op) (w : Sim) :
  counter_of r w ≤ maxNumTasks w →
  counter_of r (exec ops w) ≤ maxNumTasks w ∧
  maxNumTasks (exec ops w) = maxNumTasks w ∧
  Z.of_nat (length (spawned_threads r ops w)) ≤ maxNumTasks w - counter_of r w.
Proof.
  revert w. induction ops as [|op ops IH]; intros w Hle.
  - simpl. split_and!; [done|done|lia].
  - change (exec (op :: ops) w) with (exec ops (run_op op w).2).
    pose proof (counter_step r op w) as Hstep.
    pose proof (run_op_maxNumTasks op w) as Hmx.
    assert (Hone : counter_of r (run_op op w).2 ≤ maxNumTasks w).
    { rewrite Hstep. destruct op as [r'|r' th|r' th|r' th|r']; try (simpl; lia).
      destruct (decide (r' = r)) as [->|Hne];
        [|unfold spawned; rewrite decide_False by done; simpl; lia].
      rewrite spawned_spawn. unfold counter_of in *. destruct (tasks w !! r) as [t|]; simpl in *; [|lia].
      destruct (bool_decide (t_nextThreadNum t < maxNumTasks w)) eqn:Hlt; simpl; [|lia].
      apply bool_decide_eq_true_1 in Hlt. lia. }
    destruct (IH (run_op op w).2) as (H1 & H2 & H3); [by rewrite Hmx|].
    rewrite Hmx in *. cbn [spawned_threads]. rewrite length_app.
    split_and!; [done|done|lia].
Qed.

Lemma spawn_count_is_bounded_witness :
  counter_of 0 sim2 ≤ maxNumTasks sim2 ∧
  counter_of 0 (exec [OpSpawn 0; OpRemoveThread 0 (mkThread 2 0 0 false); OpSpawn 0;
                      OpSpawn 0] sim2) ≤ maxNumTasks sim2 ∧
  maxNumTasks (exec [OpSpawn 0; OpRemoveThread 0 (mkThread 2 0 0 false); OpSpawn 0;
                     OpSpawn 0] sim2) = maxNumTasks sim2 ∧
  Z.of_nat (length (spawned_threads 0
                      [OpSpawn 0; OpRemoveThread 0 (mkThread 2 0 0 false); OpSpawn 0;
                       OpSpawn 0] sim2))
    ≤ maxNumTasks sim2 - counter_of 0 sim2.
Proof.
  assert (H : counter_of 0 sim2 ≤ maxNumTasks sim2) by (vm_compute; discriminate).
  split; [exact H|]. exact (spawn_count_is_bounded 0 _ sim2 H).
Defined.
